(** * taskManagerOS: a shallow embedding of the sampling, history, chart and
    process-action logic of [git.py] (the extended task manager).

    Conventions of the embedding.
    - Python [int] is [Z]; a length is a [nat].
    - Python [str] is [string], restricted to ASCII text.
    - A Python [float] is [float] below: a finite value is the rational it
      denotes, and the three non-finite values are kept apart.
    - Calls into psutil, GPUtil, Qt and the clock are inputs: their outcomes
      are read from a [World] record, and an exception is an explicit
      [Raised] outcome that carries the widget state mutated so far. *)

From Stdlib Require Import ZArith QArith Qabs String Ascii List Bool Lia.
From Stdlib Require Import DecimalString DecimalPos DecimalZ Permutation Sorted.
Import ListNotations.

Local Open Scope Z_scope.
Local Open Scope string_scope.

(** ** Python strings *)

Module PyStr.

(** [str.lower()] on ASCII text. *)
Definition lower_ascii (c : ascii) : ascii :=
  let n := nat_of_ascii c in
  if ((65 <=? n) && (n <=? 90))%nat then ascii_of_nat (n + 32) else c.

Fixpoint lower (s : string) : string :=
  match s with
  | EmptyString => EmptyString
  | String c s' => String (lower_ascii c) (lower s')
  end.

(** [str.isspace()] on one ASCII character: TAB, LF, VT, FF, CR, the four
    separators FS, GS, RS, US and the space. *)
Definition is_space (c : ascii) : bool :=
  let n := nat_of_ascii c in
  (((9 <=? n) && (n <=? 13)) || ((28 <=? n) && (n <=? 32)))%nat.

Fixpoint lstrip (s : string) : string :=
  match s with
  | EmptyString => EmptyString
  | String c s' => if is_space c then lstrip s' else s
  end.

Fixpoint rstrip (s : string) : string :=
  match s with
  | EmptyString => EmptyString
  | String c s' =>
      match rstrip s' with
      | EmptyString => if is_space c then EmptyString else String c EmptyString
      | r => String c r
      end
  end.

(** [str.strip()] *)
Definition strip (s : string) : string := rstrip (lstrip s).

(** [q in s] on strings: [q] occurs as a contiguous substring of [s]. *)
Fixpoint contains (q s : string) : bool :=
  prefix q s ||
  match s with
  | EmptyString => false
  | String _ s' => contains q s'
  end.

(** [sep.join(l)] *)
Fixpoint join (sep : string) (l : list string) : string :=
  match l with
  | [] => ""
  | [x] => x
  | x :: rest => x ++ sep ++ join sep rest
  end.

(** [str(n)] for an [int]. *)
Definition str_int (z : Z) : string := NilZero.string_of_int (Z.to_int z).

(** [not s] for a string: true exactly on the empty string. *)
Definition is_empty (s : string) : bool :=
  match s with EmptyString => true | _ => false end.

Definition is_digit (c : ascii) : bool :=
  let n := nat_of_ascii c in ((48 <=? n) && (n <=? 57))%nat.

Fixpoint all_digits (s : string) : bool :=
  match s with
  | EmptyString => true
  | String c s' => is_digit c && all_digits s'
  end.

(** [int(s)] on the text of a table cell: surrounding whitespace is
    dropped, then an optional sign and a non-empty run of decimal digits is
    read; anything else raises [ValueError] ([None]). *)
Definition int_of_digits (s : string) : option Z :=
  if is_empty s then None
  else if all_digits s
  then option_map Z.of_int (NilZero.int_of_string s)
  else None.

Definition py_int (s : string) : option Z :=
  match strip s with
  | String "-" d => option_map Z.opp (int_of_digits d)
  | String "+" d => int_of_digits d
  | d => int_of_digits d
  end.

End PyStr.

(** ** Python floats *)

Inductive float : Type :=
  | Fin (q : Q)
  | PInf
  | NInf
  | NaN.

Module PyFloat.

(** [a >= b]; every comparison with NaN is false. *)
Definition ge (a b : float) : bool :=
  match a, b with
  | NaN, _ | _, NaN => false
  | PInf, _ => true
  | _, NInf => true
  | NInf, _ => false
  | _, PInf => false
  | Fin x, Fin y => Qle_bool y x
  end.

(** [a / b] for a finite positive divisor [b]. *)
Definition div_pos (a : float) (b : Q) : float :=
  match a with
  | Fin x => Fin (x / b)
  | other => other
  end.

(** Nearest integer to the non-negative rational [q], ties to even. *)
Definition round_half_even (q : Q) : Z :=
  let a := Qnum q in
  let b := Z.pos (Qden q) in
  let fl := a / b in
  let r := a mod b in
  match 2 * r ?= b with
  | Lt => fl
  | Gt => fl + 1
  | Eq => if Z.even fl then fl else fl + 1
  end.

Definition digit_char (d : Z) : ascii := ascii_of_nat (48 + Z.to_nat d).

(** [format(x, '.2f')]: sign, integer digits, a point and exactly two
    fraction digits; the non-finite values print as words. *)
Definition format_2f (x : float) : string :=
  match x with
  | PInf => "inf"
  | NInf => "-inf"
  | NaN => "nan"
  | Fin q =>
      let m := round_half_even (Qabs q * 100) in
      let body :=
        PyStr.str_int (m / 100) ++ "." ++
        String (digit_char ((m mod 100) / 10))
          (String (digit_char (m mod 10)) "") in
      if Qlt_le_dec q 0 then "-" ++ body else body
  end.

(** [round(x, 2)] on a finite float. *)
Definition round2 (q : Q) : Q :=
  let m := round_half_even (Qabs q * 100) in
  if Qlt_le_dec q 0 then (- m) # 100 else m # 100.

End PyFloat.

(** ** [human_bytes] *)

Section HumanBytes.

(** The argument is any Python object; [py_float] is the builtin
    [float(n)], [None] when it raises. *)
Variable PyObj : Type.
Variable py_float : PyObj -> option float.

Definition step : Q := 1024.
Definition units : list string := ["B"; "KB"; "MB"; "GB"; "TB"].

(** The loop [while n >= step and i < len(units)-1: n /= step; i += 1],
    run for at most [fuel] iterations. *)
Fixpoint scale_loop (fuel : nat) (n : float) (i : nat) : float * nat :=
  match fuel with
  | O => (n, i)
  | S fuel' =>
      if PyFloat.ge n (Fin step) && (i <? length units - 1)%nat
      then scale_loop fuel' (PyFloat.div_pos n step) (i + 1)
      else (n, i)
  end.

Definition human_bytes (n : PyObj) : string :=
  match py_float n with
  | None => "0 B"
  | Some x =>
      let (x', i) := scale_loop (length units - 1) x 0 in
      PyFloat.format_2f x' ++ " " ++ nth i units ""
  end.

End HumanBytes.

(** [float(n)] for an [int], as the callers pass byte counters. Below 2^53
    in absolute value the conversion is exact. From there on the 53 leading
    bits are kept and the rest is rounded to nearest, ties to even, and an
    int that rounds to 2^1024 or more raises [OverflowError]. *)
Definition float_of_int (z : Z) : option float :=
  let a := Z.abs z in
  if Z.ltb a (2 ^ 53) then Some (Fin (inject_Z z))
  else
    let sh := Z.log2 a - 52 in
    let q := a / 2 ^ sh in
    let r := a mod 2 ^ sh in
    let m :=
      match Z.compare r (2 ^ (sh - 1)) with
      | Lt => q
      | Gt => q + 1
      | Eq => if Z.even q then q else q + 1
      end in
    let v := m * 2 ^ sh in
    if Z.ltb v (2 ^ 1024) then Some (Fin (inject_Z (Z.sgn z * v))) else None.

Definition human_bytes_int : Z -> string := human_bytes Z float_of_int.

(** ** Chart buffers *)

(** [list.pop(0)] on a list that was appended to just before: the first
    element goes. In both [push] and [update_graph] every [pop(0)] follows
    an [append] to the same list, so the list is never empty there. *)
Definition pop0 {A : Type} (l : list A) : list A := tl l.

(** The state of a [MiniProcChart]: three parallel series and the bound. *)
Record MiniProcChart : Type := mkMiniProcChart {
  mc_cpu_data : list float;
  mc_mem_data : list float;
  mc_times : list string;
  mc_maxlen : Z
}.

Module MiniProcChart_.

(** [MiniProcChart(maxlen=30)] *)
Definition init (maxlen : Z) : MiniProcChart := mkMiniProcChart [] [] [] maxlen.

Definition default : MiniProcChart := init 30.

(** [push(cpu, mem, t)] *)
Definition push (c : MiniProcChart) (cpu mem : float) (t : string)
  : MiniProcChart :=
  let cpu_data := (mc_cpu_data c ++ [cpu])%list in
  let mem_data := (mc_mem_data c ++ [mem])%list in
  let times := (mc_times c ++ [t])%list in
  if Z.of_nat (length times) >? mc_maxlen c
  then mkMiniProcChart (pop0 cpu_data) (pop0 mem_data) (pop0 times) (mc_maxlen c)
  else mkMiniProcChart cpu_data mem_data times (mc_maxlen c).

(** [clear()] *)
Definition clear (c : MiniProcChart) : MiniProcChart :=
  mkMiniProcChart [] [] [] (mc_maxlen c).

(** What [redraw] plots: the time labels, against which it draws the CPU
    series and the memory series. *)
Definition snapshot (c : MiniProcChart)
  : list string * list float * list float :=
  (mc_times c, mc_cpu_data c, mc_mem_data c).

End MiniProcChart_.

(** The state of the system [PerfGraph]. *)
Record PerfGraph : Type := mkPerfGraph {
  pg_x_data : list string;
  pg_cpu_data : list float;
  pg_mem_data : list float
}.

Module PerfGraph_.

Definition init : PerfGraph := mkPerfGraph [] [] [].

(** [update_graph()], with the three readings it takes from psutil and the
    clock given as arguments. *)
Definition update_graph (g : PerfGraph) (cpu mem : float) (t : string)
  : PerfGraph :=
  let x_data := (pg_x_data g ++ [t])%list in
  let cpu_data := (pg_cpu_data g ++ [cpu])%list in
  let mem_data := (pg_mem_data g ++ [mem])%list in
  if (40 <? length x_data)%nat
  then mkPerfGraph (pop0 x_data) (pop0 cpu_data) (pop0 mem_data)
  else mkPerfGraph x_data cpu_data mem_data.

(** What [update_graph] plots: the time labels, against which it draws the
    CPU series and the memory series. *)
Definition snapshot (g : PerfGraph)
  : list string * list float * list float :=
  (pg_x_data g, pg_cpu_data g, pg_mem_data g).

End PerfGraph_.

(** One reading pushed into a chart. *)
Record Point : Type := mkPoint {
  pt_cpu : float;
  pt_mem : float;
  pt_time : string
}.

Definition push_all (c : MiniProcChart) (ps : list Point) : MiniProcChart :=
  fold_left
    (fun c p => MiniProcChart_.push c (pt_cpu p) (pt_mem p) (pt_time p)) ps c.

Definition update_all (g : PerfGraph) (ps : list Point) : PerfGraph :=
  fold_left
    (fun g p => PerfGraph_.update_graph g (pt_cpu p) (pt_mem p) (pt_time p))
    ps g.

(** The last [n] elements of a list, in order. *)
Definition lastn {A : Type} (n : nat) (l : list A) : list A :=
  skipn (length l - n) l.

(** ** Exceptions and outcomes of external calls *)

(** The exception classes the handlers tell apart, each with the text
    [str(e)] gives. [NoSuchProcess], [AccessDenied] and [TimeoutExpired]
    are psutil's; every other exception is [OtherError]. *)
Inductive exn : Type :=
  | NoSuchProcess (msg : string)
  | AccessDenied (msg : string)
  | TimeoutExpired (msg : string)
  | OtherError (msg : string).

Definition exn_str (e : exn) : string :=
  match e with
  | NoSuchProcess m | AccessDenied m | TimeoutExpired m | OtherError m => m
  end.

(** What one external call gives: a value, or a raised exception. *)
Inductive Result (A : Type) : Type :=
  | Val (a : A)
  | Exc (e : exn).
Arguments Val {A} a.
Arguments Exc {A} e.

(** ** The OS metrics provider *)

(** [p.info], the dict [psutil.process_iter(attrs)] fills in for one
    process: a field psutil could not read is [None]. *)
Record ProcInfo : Type := mkProcInfo {
  pi_pid : Z;
  pi_name : option string;
  pi_username : option string;
  pi_cpu_percent : option Q;
  pi_memory_percent : option Q;
  pi_num_threads : option Z;
  pi_create_time : option Q;
  pi_status : option string;
  pi_io_counters : option (Z * Z);
  pi_exe : option string;
  pi_cmdline : option (list string);
  pi_nice : option Z
}.

(** A [psutil.Process] object: what each of its methods gives. *)
Record ProcHandle : Type := mkProcHandle {
  ph_name : Result string;
  ph_username : Result string;
  ph_status : Result string;
  ph_create_time : Result Q;
  ph_num_threads : Result Z;
  ph_cpu_percent : Result Q;
  ph_memory_percent : Result Q;
  ph_io_counters : Result (Z * Z);
  ph_exe : Result string;
  ph_cmdline : Result (list string);
  ph_open_files : Result nat;
  ph_connections : Result nat;
  ph_nice : Result Z;
  ph_set_nice : Z -> Result unit;
  ph_terminate : Result unit;
  ph_kill : Result unit;
  ph_wait : Z -> Result unit;
  ph_suspend : Result unit;
  ph_resume : Result unit
}.

(** One entry of [GPUtil.getGPUs()]. *)
Record GPU : Type := mkGPU {
  gpu_id : Z;
  gpu_name : string;
  gpu_load : Q;
  gpu_memoryUsed : Q;
  gpu_memoryTotal : Q;
  gpu_processes : option (list Z)
}.

(** One entry of [psutil.users()]; [started] is a number or something
    else, of which only the text is used. *)
Record User : Type := mkUser {
  u_name : string;
  u_terminal : string;
  u_started : Q + string
}.

(** Everything outside the program during one handler run: the outcome of
    each call into psutil, GPUtil and the clock, and the text Python's own
    formatting gives for floats and timestamps. *)
Record World : Type := mkWorld {
  (** [platform.system()] *)
  w_platform_system : string;
  (** [getattr(psutil, name, default)] for the priority-class constants *)
  w_psutil_const : string -> option Z;
  (** [GPU_AVAILABLE] and [GPUtil.getGPUs()] *)
  w_GPU_AVAILABLE : bool;
  w_getGPUs : Result (list GPU);
  (** [psutil.process_iter([...])], run to its end, in [refresh_processes]
      and in [refresh_history_log] *)
  w_process_iter : Result (list ProcInfo);
  w_history_iter : Result (list ProcInfo);
  (** [psutil.Process(pid)] *)
  w_Process : Z -> Result ProcHandle;
  (** [psutil.users()] *)
  w_users : Result (list User);
  (** [datetime.now().strftime("%H:%M:%S")] *)
  w_now_hms : string;
  (** [datetime.fromtimestamp(t).strftime("%Y-%m-%d %H:%M:%S")] *)
  w_strftime : Q -> Result string;
  (** [str(datetime.fromtimestamp(t))] *)
  w_str_datetime : Q -> Result string;
  (** [str(x)] for a float *)
  w_str_float : Q -> string
}.

(** ** Sampling: filter and sort *)

Definition or_default {A : Type} (o : option A) (d : A) : A :=
  match o with Some a => a | None => d end.

(** [x or ""] for an optional string: [None] and the empty string both give
    the default, which is the empty string itself. *)
Definition str_or_empty (o : option string) : string := or_default o "".

(** The sort key [x.info.get('cpu_percent') or 0]. *)
Definition cpu_key (p : ProcInfo) : Q := or_default (pi_cpu_percent p) 0%Q.

(** The body of the filter loop for one process, [q] being the lowered and
    stripped search text. *)
Definition matches (q : string) (p : ProcInfo) : bool :=
  let name := PyStr.lower (str_or_empty (pi_name p)) in
  let pidstr := PyStr.str_int (pi_pid p) in
  let user := PyStr.lower (str_or_empty (pi_username p)) in
  let cmdline :=
    PyStr.lower (PyStr.join " " (or_default (pi_cmdline p) [])) in
  PyStr.is_empty q || PyStr.contains q name || PyStr.contains q pidstr
  || PyStr.contains q user || PyStr.contains q cmdline.

(** [q = self.search_edit.text().lower().strip()] *)
Definition search_query (text : string) : string :=
  PyStr.strip (PyStr.lower text).

Definition filter_procs (text : string) (procs : list ProcInfo)
  : list ProcInfo :=
  filter (matches (search_query text)) procs.

(** [list.sort(key=..., reverse=True)] and [sorted(..., reverse=True)]:
    descending by key, and stable, so an element goes in front of the
    elements of equal key that followed it in the input. *)
Fixpoint insert_desc {A : Type} (key : A -> Q) (x : A) (l : list A) : list A :=
  match l with
  | [] => [x]
  | y :: l' =>
      if Qle_bool (key y) (key x) then x :: y :: l'
      else y :: insert_desc key x l'
  end.

Fixpoint sort_desc {A : Type} (key : A -> Q) (l : list A) : list A :=
  match l with
  | [] => []
  | x :: l' => insert_desc key x (sort_desc key l')
  end.

(** The rows [refresh_processes] shows, in order: the snapshot filtered by
    the search text, then sorted by CPU. *)
Definition sample_rows (text : string) (procs : list ProcInfo)
  : list ProcInfo :=
  sort_desc cpu_key (filter_procs text procs).

(** ** The main window *)

(** A message box shown to the user. *)
Inductive MessageBox : Type :=
  | Information (title text : string)
  | Warning (title text : string).

(** A table widget is its rows, top to bottom, and a row is the texts of
    its cells, left to right. *)
Definition Table : Type := list (list string).

(** The part of [TaskManager] that the refresh and action handlers read and
    write. [proc_selected] lists the selected rows of [proc_table] in the
    order [selectedItems()] gives them; [shown] lists the message boxes
    shown so far, oldest first. *)
Record TaskManager : Type := mkTaskManager {
  search_edit : string;
  proc_table : Table;
  proc_selected : list nat;
  history_table : Table;
  users_table : Table;
  details_text : string;
  proc_chart : MiniProcChart;
  gpu_label : string;
  shown : list MessageBox
}.

Definition set_proc_table (t : Table) (sel : list nat) (st : TaskManager) :=
  mkTaskManager (search_edit st) t sel (history_table st) (users_table st)
    (details_text st) (proc_chart st) (gpu_label st) (shown st).

Definition set_history_table (t : Table) (st : TaskManager) :=
  mkTaskManager (search_edit st) (proc_table st) (proc_selected st) t
    (users_table st) (details_text st) (proc_chart st) (gpu_label st)
    (shown st).

Definition set_users_table (t : Table) (st : TaskManager) :=
  mkTaskManager (search_edit st) (proc_table st) (proc_selected st)
    (history_table st) t (details_text st) (proc_chart st) (gpu_label st)
    (shown st).

Definition set_details (text : string) (c : MiniProcChart) (st : TaskManager) :=
  mkTaskManager (search_edit st) (proc_table st) (proc_selected st)
    (history_table st) (users_table st) text c (gpu_label st) (shown st).

Definition set_gpu_label (text : string) (st : TaskManager) :=
  mkTaskManager (search_edit st) (proc_table st) (proc_selected st)
    (history_table st) (users_table st) (details_text st) (proc_chart st)
    text (shown st).

Definition show (m : MessageBox) (st : TaskManager) :=
  mkTaskManager (search_edit st) (proc_table st) (proc_selected st)
    (history_table st) (users_table st) (details_text st) (proc_chart st)
    (gpu_label st) (shown st ++ [m])%list.

(** How a handler ends: it returns, or an exception leaves it; either way
    the widgets keep what was written to them. *)
Inductive Outcome : Type :=
  | Done (st : TaskManager)
  | Raised (e : exn) (st : TaskManager).

Definition Handler : Type := TaskManager -> Outcome.

(** [f(); g()] *)
Definition and_then (f g : Handler) : Handler :=
  fun st => match f st with
            | Done st' => g st'
            | Raised e st' => Raised e st'
            end.

(** [try: f() finally: g()] *)
Definition finally (f g : Handler) : Handler :=
  fun st => match f st with
            | Done st' => g st'
            | Raised e st' =>
                match g st' with
                | Done st'' => Raised e st''
                | Raised e' st'' => Raised e' st''
                end
            end.

Definition state_of (o : Outcome) : TaskManager :=
  match o with Done st | Raised _ st => st end.

Definition raised (o : Outcome) : bool :=
  match o with Done _ => false | Raised _ _ => true end.

(** [bind] for the outcome of external calls. *)
Definition rbind {A B : Type} (r : Result A) (k : A -> Result B) : Result B :=
  match r with Val a => k a | Exc e => Exc e end.

Notation "x <- r ;; k" := (rbind r (fun x => k))
  (at level 61, r at next level, right associativity).

(** *** The process table *)

Definition newline : string := String (ascii_of_nat 10) "".

Definition column_count : nat := 14.

(** [table.item(r, c).text()], when the item exists. *)
Definition cell (t : Table) (r c : nat) : option string :=
  match nth_error t r with
  | Some row => nth_error row c
  | None => None
  end.

(** [selectedItems()[0].text()], when an item is selected. *)
Definition first_selected_text (st : TaskManager) : option string :=
  match proc_selected st with
  | [] => None
  | r :: _ => cell (proc_table st) r 0
  end.

(** The dict [gpu_dict] of [refresh_processes]: a later assignment to a
    pid hides the earlier ones. *)
Definition gpu_dict_of (w : World) : list (Z * Q) :=
  if w_GPU_AVAILABLE w then
    match w_getGPUs w with
    | Exc _ => []
    | Val gpus =>
        fold_left
          (fun d gpu =>
             fold_left (fun d pid => (pid, (gpu_load gpu * 100)%Q) :: d)
               (or_default (gpu_processes gpu) []) d)
          gpus []
    end
  else [].

Fixpoint dict_get (d : list (Z * Q)) (pid : Z) : option Q :=
  match d with
  | [] => None
  | (k, v) :: d' => if Z.eqb k pid then Some v else dict_get d' pid
  end.

Definition is_zero (q : Q) : bool := Qeq_bool q 0.

(** The fourteen cell texts of one process row. *)
Definition row_of (w : World) (gpu_dict : list (Z * Q)) (p : ProcInfo)
  : list string :=
  let pid := pi_pid p in
  let name := str_or_empty (pi_name p) in
  let user := str_or_empty (pi_username p) in
  let cpu := or_default (pi_cpu_percent p) 0%Q in
  let mem := PyFloat.round2 (or_default (pi_memory_percent p) 0%Q) in
  let threads := or_default (pi_num_threads p) 0 in
  let start :=
    match pi_create_time p with
    | None => ""
    | Some t =>
        if is_zero t then ""
        else match w_strftime w t with Val s => s | Exc _ => "" end
    end in
  let status := str_or_empty (pi_status p) in
  let read_b :=
    match pi_io_counters p with
    | Some (r, _) => human_bytes_int r
    | None => "0 B"
    end in
  let write_b :=
    match pi_io_counters p with
    | Some (_, wr) => human_bytes_int wr
    | None => "0 B"
    end in
  let gpu_percent :=
    match gpu_dict with
    | [] => w_str_float w 0%Q
    | _ => match dict_get gpu_dict pid with
           | Some v => w_str_float w (PyFloat.round2 v)
           | None => "0"
           end
    end in
  let path := str_or_empty (pi_exe p) in
  let cmdline := PyStr.join " " (or_default (pi_cmdline p) []) in
  let nice :=
    match pi_nice p with
    | None => ""
    | Some n => if Z.eqb n 0 then "" else PyStr.str_int n
    end in
  [PyStr.str_int pid; name; user; w_str_float w cpu; w_str_float w mem;
   PyStr.str_int threads; start; status; read_b; write_b; gpu_percent;
   path; cmdline; nice].

(** [findItems(text, Qt.MatchExactly)]: Qt walks the table column by
    column, and each column from the top row down, and returns every item
    whose text is [text]; the result is the list of their (row, column). *)
Definition find_in_column (text : string) (t : Table) (c : nat)
  : list (nat * nat) :=
  flat_map
    (fun r => match cell t r c with
              | Some s => if String.eqb s text then [(r, c)] else []
              | None => []
              end)
    (seq 0 (length t)).

Definition findItems (text : string) (t : Table) : list (nat * nat) :=
  flat_map (find_in_column text t) (seq 0 column_count).

(** The selection after the "restore selection if possible" step. *)
Definition restore_selection (selected_pid : option Z) (t : Table)
  : list nat :=
  match selected_pid with
  | None => []
  | Some pid =>
      match findItems (PyStr.str_int pid) t with
      | [] => []
      | (r, _) :: _ => [r]
      end
  end.

(** *** [update_selected_details] *)

(** The lines built before the first [try]: every call here is outside any
    handler, so the first one that raises ends the function. *)
Definition details_head (w : World) (pid : Z) (p : ProcHandle)
  : Result (list string) :=
  name <- ph_name p ;;
  user <- ph_username p ;;
  status <- ph_status p ;;
  ct <- ph_create_time p ;;
  started <- (if is_zero ct then Val ""
              else (ct' <- ph_create_time p ;; w_strftime w ct')) ;;
  threads <- ph_num_threads p ;;
  Val ["PID: " ++ PyStr.str_int pid;
       "Name: " ++ name;
       "User: " ++ user;
       "Status: " ++ status;
       "Started: " ++ started;
       "Threads: " ++ PyStr.str_int threads].

(** A line whose value is fetched inside its own [try]. *)
Definition guarded {A : Type} (r : Result A) (ok : A -> string)
  (fallback : string) : string :=
  match r with Val a => ok a | Exc _ => fallback end.

Definition str_nat (n : nat) : string := PyStr.str_int (Z.of_nat n).

Definition details_tail (w : World) (p : ProcHandle) : list string :=
  [guarded (ph_cpu_percent p)
     (fun c => "CPU% (last): " ++ w_str_float w c) "CPU% (last): N/A";
   guarded (ph_memory_percent p)
     (fun m => "Memory%: " ++ PyFloat.format_2f (Fin m)) "Memory%: N/A";
   guarded (ph_io_counters p)
     (fun io => "IO Read: " ++ human_bytes_int (fst io) ++ ", IO Write: "
                ++ human_bytes_int (snd io)) "IO: N/A";
   guarded (ph_exe p) (fun e => "Executable: " ++ e) "Executable: N/A";
   guarded (ph_cmdline p)
     (fun c => "Cmdline: " ++ PyStr.join " " c) "Cmdline: N/A";
   guarded (ph_open_files p)
     (fun n => "Open files: " ++ str_nat n) "Open files: N/A";
   guarded (ph_connections p)
     (fun n => "Connections: " ++ str_nat n) "Connections: N/A";
   guarded (ph_nice p)
     (fun n => "Nice/Priority: " ++ PyStr.str_int n) "Nice/Priority: N/A"].

Definition update_selected_details (w : World) : Handler :=
  fun st =>
    match first_selected_text st with
    | None =>
        Done (set_details "No process selected."
                (MiniProcChart_.clear (proc_chart st)) st)
    | Some text =>
        match PyStr.py_int text with
        | None => Raised (OtherError "invalid literal for int()") st
        | Some pid =>
            match w_Process w pid with
            | Exc _ =>
                Done (set_details "Process ended or not accessible."
                        (MiniProcChart_.clear (proc_chart st)) st)
            | Val p =>
                match details_head w pid p with
                | Exc e => Raised e st
                | Val head =>
                    let text :=
                      PyStr.join newline (head ++ details_tail w p)%list in
                    let chart :=
                      match ph_cpu_percent p, ph_memory_percent p with
                      | Val cpu, Val mem =>
                          MiniProcChart_.push (proc_chart st) (Fin cpu)
                            (Fin (PyFloat.round2 mem)) (w_now_hms w)
                      | _, _ => MiniProcChart_.clear (proc_chart st)
                      end in
                    Done (set_details text chart st)
                end
            end
        end
    end.

(** *** [refresh_processes] *)

(** The local [procs]: an enumeration that raises leaves it empty. *)
Definition snapshot_of (r : Result (list ProcInfo)) : list ProcInfo :=
  match r with Val l => l | Exc _ => [] end.

(** The local [selected_pid]. *)
Definition selected_pid_of (st : TaskManager) : option Z :=
  match first_selected_text st with
  | None => None
  | Some text => PyStr.py_int text
  end.

(** The table and the selection after the rows are rebuilt and the
    selection restored, before the details pane is updated. *)
Definition rebuild_table (w : World) (st : TaskManager) : TaskManager :=
  let selected_pid := selected_pid_of st in
  let gpu_dict := gpu_dict_of w in
  let procs := snapshot_of (w_process_iter w) in
  let filtered := sample_rows (search_edit st) procs in
  let table := map (row_of w gpu_dict) filtered in
  set_proc_table table (restore_selection selected_pid table) st.

(** [refresh_processes()]. Replacing the rows and selecting a row make Qt
    emit [itemSelectionChanged], whose slot is the same
    [update_selected_details]; those nested runs are not modelled, the call
    that ends the function is. *)
Definition refresh_processes (w : World) : Handler :=
  fun st => update_selected_details w (rebuild_table w st).

(** The pid shown in the selected row after a refresh, if a row is
    selected: what the caller sees as the restored selection. *)
Definition restored_selection (st : TaskManager) : option Z :=
  selected_pid_of st.

(** *** [refresh_users] *)

Definition started_text (w : World) (u : User) : Result string :=
  match u_started u with
  | inl t => w_str_datetime w t
  | inr s => Val s
  end.

(** The loop over [psutil.users()]: a row is inserted and its first two
    cells set before the third is computed. *)
Fixpoint fill_users (w : World) (us : list User) (rows : Table)
  : Table + (exn * Table) :=
  match us with
  | [] => inl rows
  | u :: us' =>
      match started_text w u with
      | Val s => fill_users w us' (rows ++ [[u_name u; u_terminal u; s]])%list
      | Exc e => inr (e, (rows ++ [[u_name u; u_terminal u]])%list)
      end
  end.

Definition refresh_users (w : World) : Handler :=
  fun st =>
    let st0 := set_users_table [] st in
    match w_users w with
    | Exc e => Raised e st0
    | Val us =>
        match fill_users w us [] with
        | inl rows => Done (set_users_table rows st0)
        | inr (e, rows) => Raised e (set_users_table rows st0)
        end
    end.

(** *** [update_gpu_label] *)

(** [format(x, '.0f')] on a finite float. *)
Definition format_0f (q : Q) : string :=
  let body := PyStr.str_int (PyFloat.round_half_even (Qabs q)) in
  if Qlt_le_dec q 0 then "-" ++ body else body.

Definition gpu_line (g : GPU) : string :=
  "GPU " ++ PyStr.str_int (gpu_id g) ++ " (" ++ gpu_name g ++ "): "
  ++ PyFloat.format_2f (Fin (gpu_load g * 100)) ++ "% | VRAM used: "
  ++ format_0f (gpu_memoryUsed g) ++ "/" ++ format_0f (gpu_memoryTotal g)
  ++ " MB".

Definition update_gpu_label (w : World) : Handler :=
  fun st =>
    if w_GPU_AVAILABLE w then
      let gpu_info :=
        match w_getGPUs w with
        | Val gpus => map gpu_line gpus
        | Exc _ => ["GPU info not available"]
        end in
      Done (set_gpu_label (PyStr.join newline gpu_info) st)
    else Done (set_gpu_label "GPU info not available" st).

(** *** [refresh_history_log] *)

(** [str(x)] for an optional value: [None] prints as the word. *)
Definition str_opt {A : Type} (f : A -> string) (o : option A) : string :=
  match o with Some a => f a | None => "None" end.

(** The six cells of one history row. *)
Definition history_row (w : World) (p : ProcInfo) : list string :=
  [w_now_hms w;
   PyStr.str_int (pi_pid p);
   str_opt (fun s => s) (pi_name p);
   str_opt (w_str_float w) (pi_cpu_percent p);
   str_opt (w_str_float w) (pi_memory_percent p);
   "0"].

Definition history_cap : nat := 500.

(** [removeRow(0)] *)
Definition removeRow0 (t : Table) : Table := tl t.

(** The table after one call, given the processes enumerated. *)
Definition log_top5 (w : World) (procs : list ProcInfo) (t : Table) : Table :=
  let top := firstn 5 (sort_desc cpu_key procs) in
  let t' := (t ++ map (history_row w) top)%list in
  if (history_cap <? length t')%nat then removeRow0 t' else t'.

Definition refresh_history_log (w : World) : Handler :=
  fun st =>
    match w_history_iter w with
    | Val procs =>
        Done (set_history_table (log_top5 w procs (history_table st)) st)
    | Exc _ => Done st
    end.

(** *** [auto_refresh]: one tick of the refresh timer *)

Definition auto_refresh (w : World) : Handler :=
  and_then (refresh_processes w)
    (and_then (refresh_users w)
       (and_then (update_gpu_label w) (refresh_history_log w))).

(** A run of ticks, each in the world of its time; the timer keeps firing
    only while no tick lets an exception out. *)
Fixpoint run_ticks (ws : list World) (st : TaskManager) : Outcome :=
  match ws with
  | [] => Done st
  | w :: ws' =>
      match auto_refresh w st with
      | Done st' => run_ticks ws' st'
      | r => r
      end
  end.

(** ** Process actions *)

(** The body of the [try] in [terminate_pid] and in [kill_pid]: look the
    process up, signal it and wait up to three seconds. *)
Definition stop_process (w : World) (pid : Z)
  (signal : ProcHandle -> Result unit) : Result unit :=
  p <- w_Process w pid ;;
  _ <- signal p ;;
  ph_wait p 3.

(** The message box each [except] clause, or the end of the [try], shows. *)
Definition stop_message (title done : string) (r : Result unit) : MessageBox :=
  match r with
  | Val _ => Information title done
  | Exc (NoSuchProcess _) => Information title "Process does not exist."
  | Exc e => Warning title ("Error: " ++ exn_str e)
  end.

Definition terminate_pid (w : World) (pid : Z) : Handler :=
  finally
    (fun st => Done (show (stop_message "Terminate" "Process terminated."
                             (stop_process w pid ph_terminate)) st))
    (refresh_processes w).

Definition kill_pid (w : World) (pid : Z) : Handler :=
  finally
    (fun st => Done (show (stop_message "Kill" "Process killed."
                             (stop_process w pid ph_kill)) st))
    (refresh_processes w).

Definition simple_message (title done : string) (r : Result unit)
  : MessageBox :=
  match r with
  | Val _ => Information title done
  | Exc e => Warning title ("Error: " ++ exn_str e)
  end.

Definition suspend_pid (w : World) (pid : Z) : Handler :=
  finally
    (fun st => Done (show (simple_message "Suspend" "Process suspended."
                             (p <- w_Process w pid ;; ph_suspend p)) st))
    (refresh_processes w).

Definition resume_pid (w : World) (pid : Z) : Handler :=
  finally
    (fun st => Done (show (simple_message "Resume" "Process resumed."
                             (p <- w_Process w pid ;; ph_resume p)) st))
    (refresh_processes w).

(** *** [set_priority_by_value] *)

(** [getattr(psutil, name, default)] *)
Definition psutil_getattr (w : World) (name : string) (default : Z) : Z :=
  or_default (w_psutil_const w name) default.

(** The dict [mapping] of the Windows branch, and [mapping.get]. *)
Definition windows_mapping (w : World) : list (string * Z) :=
  [("Low", psutil_getattr w "IDLE_PRIORITY_CLASS" 64);
   ("Normal", psutil_getattr w "NORMAL_PRIORITY_CLASS" 32);
   ("High", psutil_getattr w "HIGH_PRIORITY_CLASS" 128);
   ("Realtime", psutil_getattr w "REALTIME_PRIORITY_CLASS" 256)].

Fixpoint mapping_get (m : list (string * Z)) (k : string) (default : Z) : Z :=
  match m with
  | [] => default
  | (k', v) :: m' => if String.eqb k' k then v else mapping_get m' k default
  end.

(** The [if]/[elif]/[else] chain of the Unix branch. *)
Definition unix_nice (label : string) : Z :=
  if String.eqb label "Low" then 19
  else if String.eqb label "Normal" then 0
  else if String.eqb label "High" then -5
  else -20.

(** The value [set_priority_by_value] passes to [p.nice]. *)
Definition nice_value (w : World) (label : string) : Z :=
  if String.eqb (w_platform_system w) "Windows"
  then mapping_get (windows_mapping w) label
         (psutil_getattr w "NORMAL_PRIORITY_CLASS" 32)
  else unix_nice label.

Definition set_priority_by_value (w : World) (pid : Z) (label : string)
  : Handler :=
  finally
    (fun st =>
       let r := p <- w_Process w pid ;; ph_set_nice p (nice_value w label) in
       Done (show
               match r with
               | Val _ =>
                   Information "Priority"
                     ("Set priority " ++ label ++ " for PID "
                      ++ PyStr.str_int pid)
               | Exc e =>
                   Warning "Priority"
                     ("Could not set priority: " ++ exn_str e)
               end st))
    (refresh_processes w).

(** ** Predicates used in the statements *)

(** A decimal numeral with exactly two fraction digits: an optional minus
    sign, one or more digits, a point, two digits. *)
Definition is_decimal_2f (s : string) : Prop :=
  exists sign ip d1 d2,
    s = sign ++ ip ++ "." ++ String d1 (String d2 "") /\
    (sign = "" \/ sign = "-") /\
    ip <> "" /\
    PyStr.all_digits ip = true /\
    PyStr.is_digit d1 = true /\
    PyStr.is_digit d2 = true.

(** The guard of the scaling loop of [human_bytes]. *)
Definition scale_guard (n : float) (i : nat) : bool :=
  PyFloat.ge n (Fin step) && (i <? length units - 1)%nat.

(** Two floats of the same kind: the scaling loop keeps the kind of the float: a finite value stays
    finite, a non-finite one stays what it is. *)
Definition same_kind (a b : float) : Prop :=
  match a, b with
  | Fin _, Fin _ | PInf, PInf | NInf, NInf | NaN, NaN => True
  | _, _ => False
  end.

(** One series of a chart under [append] then [pop(0)] when longer than
    [n]: the shape both chart widgets give to each of their lists. *)
Definition bpush {A : Type} (n : nat) (l : list A) (x : A) : list A :=
  let l' := (l ++ [x])%list in
  if (n <? length l')%nat then pop0 l' else l'.

(** The three series of a [MiniProcChart] have one length, within the
    bound. Every chart built by [init], [push] and [clear] is so. *)
Definition aligned (c : MiniProcChart) : Prop :=
  length (mc_cpu_data c) = length (mc_times c) /\
  length (mc_mem_data c) = length (mc_times c) /\
  Z.of_nat (length (mc_times c)) <= mc_maxlen c.

(** The same for the system graph, whose bound is 40. *)
Definition aligned_graph (g : PerfGraph) : Prop :=
  length (pg_cpu_data g) = length (pg_x_data g) /\
  length (pg_mem_data g) = length (pg_x_data g) /\
  (length (pg_x_data g) <= 40)%nat.

(** The system graph seen as a chart of bound 40. *)
Definition graph_as_chart (g : PerfGraph) : MiniProcChart :=
  mkMiniProcChart (pg_cpu_data g) (pg_mem_data g) (pg_x_data g) 40.

(** A run of [n] numbered readings, for the examples. *)
Definition reading (k : nat) : Point :=
  mkPoint (Fin (inject_Z (Z.of_nat k))) (Fin (inject_Z (Z.of_nat k) / 2))
    (PyStr.str_int (Z.of_nat k)).

Definition readings (n : nat) : list Point := map reading (seq 1 n).

(** Rows of equal key, in the order they have in a list. *)
Definition with_key {A : Type} (key : A -> Q) (q : Q) (l : list A) : list A :=
  filter (fun x => Qeq_bool (key x) q) l.

(** Descending by key. *)
Definition desc_by {A : Type} (key : A -> Q) (a b : A) : Prop :=
  (key b <= key a)%Q.

(** A process of which only the pid and the CPU reading are known. *)
Definition proc (pid : Z) (cpu : option Q) : ProcInfo :=
  mkProcInfo pid None None cpu None None None None None None None None.

(** [q] occurs in [s] as a contiguous substring. *)
Definition occurs_in (q s : string) : Prop := exists a b, s = a ++ q ++ b.

(** [q] occurs in [s] when case is ignored. *)
Definition ci_occurs_in (q s : string) : Prop :=
  occurs_in (PyStr.lower q) (PyStr.lower s).

(** The retention rule in the words of the specification: the filter text
    is empty, or occurs, case ignored, in the name, the pid as text, the
    user name or the joined command line of the row. *)
Definition retained_by (q : string) (p : ProcInfo) : Prop :=
  q = "" \/
  ci_occurs_in q (str_or_empty (pi_name p)) \/
  ci_occurs_in q (PyStr.str_int (pi_pid p)) \/
  ci_occurs_in q (str_or_empty (pi_username p)) \/
  ci_occurs_in q (PyStr.join " " (or_default (pi_cmdline p) [])).

(** The first process of a Unix system. *)
Definition init_proc : ProcInfo :=
  mkProcInfo 1 (Some "init") (Some "root") (Some 0%Q) (Some 0%Q) (Some 1)
    (Some 1000%Q) (Some "sleeping") None (Some "/sbin/init")
    (Some ["/sbin/init"]) (Some 0).

(** ** Example worlds and windows *)

(** [str(x)] for a float that has at most two decimals: the shortest
    decimal text, with at least one fraction digit. *)
Definition str_float_2dp (q : Q) : string :=
  let m := PyFloat.round_half_even (Qabs q * 100) in
  let frac :=
    if Z.eqb (m mod 10) 0
    then String (PyFloat.digit_char ((m mod 100) / 10)) ""
    else String (PyFloat.digit_char ((m mod 100) / 10))
           (String (PyFloat.digit_char (m mod 10)) "") in
  let body := PyStr.str_int (m / 100) ++ "." ++ frac in
  if Qlt_le_dec q 0 then "-" ++ body else body.

(** A live process all of whose attributes can be read; only root may
    lower a nice value below zero. *)
Definition live_handle (name : string) (threads : Z) : ProcHandle :=
  mkProcHandle (Val name) (Val "root") (Val "sleeping") (Val 1000%Q)
    (Val threads) (Val 1.5%Q) (Val 0.25%Q) (Val (4096, 0)) (Val "/sbin/init")
    (Val ["/sbin/init"]) (Val 3%nat) (Val 0%nat) (Val 0)
    (fun v => if Z.ltb v 0 then Exc (AccessDenied "psutil.AccessDenied")
              else Val tt)
    (Val tt) (Val tt) (fun _ => Val tt) (Val tt) (Val tt).

(** A process that exits between [psutil.Process(pid)] and [p.name()]. *)
Definition vanishing_handle : ProcHandle :=
  let gone := NoSuchProcess "process no longer exists" in
  mkProcHandle (Exc gone) (Exc gone) (Exc gone) (Exc gone) (Exc gone)
    (Exc gone) (Exc gone) (Exc gone) (Exc gone) (Exc gone) (Exc gone)
    (Exc gone) (Exc gone) (fun _ => Exc gone) (Exc gone) (Exc gone)
    (fun _ => Exc gone) (Exc gone) (Exc gone).

(** A Linux system without GPU support on which the processes of [procs]
    run and nobody is logged in. *)
Definition linux_world (procs : list ProcInfo) : World :=
  mkWorld "Linux" (fun _ => None) false (Val []) (Val procs) (Val procs)
    (fun pid =>
       if existsb (fun p => Z.eqb (pi_pid p) pid) procs
       then Val (live_handle "init" 1)
       else Exc (NoSuchProcess "process no longer exists"))
    (Val []) "12:00:00" (fun _ => Val "1970-01-01 00:16:40")
    (fun _ => Val "1970-01-01 00:16:40") str_float_2dp.

(** The same system at a moment when [psutil.users()] fails. *)
Definition with_users (r : Result (list User)) (w : World) : World :=
  mkWorld (w_platform_system w) (w_psutil_const w) (w_GPU_AVAILABLE w)
    (w_getGPUs w) (w_process_iter w) (w_history_iter w) (w_Process w) r
    (w_now_hms w) (w_strftime w) (w_str_datetime w) (w_str_float w).

(** The same system at a moment when the process enumeration of
    [refresh_processes] fails. *)
Definition with_process_iter (r : Result (list ProcInfo)) (w : World) : World :=
  mkWorld (w_platform_system w) (w_psutil_const w) (w_GPU_AVAILABLE w)
    (w_getGPUs w) r (w_history_iter w) (w_Process w) (w_users w)
    (w_now_hms w) (w_strftime w) (w_str_datetime w) (w_str_float w).

(** A Windows system, where psutil has the priority-class constants. *)
Definition windows_world (procs : list ProcInfo) : World :=
  let w := linux_world procs in
  mkWorld "Windows"
    (fun name =>
       if String.eqb name "IDLE_PRIORITY_CLASS" then Some 64
       else if String.eqb name "NORMAL_PRIORITY_CLASS" then Some 32
       else if String.eqb name "HIGH_PRIORITY_CLASS" then Some 128
       else if String.eqb name "REALTIME_PRIORITY_CLASS" then Some 256
       else None)
    (w_GPU_AVAILABLE w) (w_getGPUs w) (w_process_iter w) (w_history_iter w)
    (w_Process w) (w_users w) (w_now_hms w) (w_strftime w)
    (w_str_datetime w) (w_str_float w).

(** The window right after its widgets are created. *)
Definition new_window : TaskManager :=
  mkTaskManager "" [] [] [] [] "" MiniProcChart_.default "" [].

(** Five busy processes. *)
Definition five_procs : list ProcInfo :=
  [proc 11 (Some 5%Q); proc 12 (Some 40%Q); proc 13 (Some 25%Q);
   proc 14 (Some 10%Q); proc 15 (Some 15%Q)].

(** A worker process with four threads, and a window in which the row of
    process 4 is selected. *)
Definition worker9 : ProcInfo :=
  mkProcInfo 9 (Some "worker") (Some "alice") (Some 2.5%Q) (Some 0.5%Q)
    (Some 4) (Some 1000%Q) (Some "running") (Some (0, 0)) (Some "/usr/bin/worker")
    (Some ["worker"; "--fast"]) (Some 10).

Definition process4 : ProcInfo :=
  mkProcInfo 4 (Some "editor") (Some "alice") (Some 1%Q) (Some 0.5%Q)
    (Some 2) (Some 1000%Q) (Some "sleeping") (Some (0, 0)) (Some "/usr/bin/editor")
    (Some ["editor"]) (Some 0).

Definition window_with_selected (w : World) (procs : list ProcInfo) (r : nat)
  : TaskManager :=
  set_proc_table (map (row_of w []) procs) [r] new_window.

(** No character of the string is whitespace. *)
Fixpoint no_space (s : string) : bool :=
  match s with
  | EmptyString => true
  | String c s' => negb (PyStr.is_space c) && no_space s'
  end.

(** ** The first version of the window, [main.py] *)

Module MainPy.

(** The five cells [log_history] writes for one process; the fields are
    read with [proc.info[...]] and printed with [str]. *)
Definition history_row (w : World) (p : ProcInfo) : list string :=
  [w_now_hms w;
   PyStr.str_int (pi_pid p);
   str_opt (fun s => s) (pi_name p);
   str_opt (w_str_float w) (pi_cpu_percent p);
   str_opt (w_str_float w) (pi_memory_percent p)].

(** [log_history()], for the processes enumerated: one row for each, and
    no row is ever removed. *)
Definition log_history (w : World) (procs : list ProcInfo) (t : Table)
  : Table :=
  (t ++ map (history_row w) procs)%list.

End MainPy.

(** ** The buttons and the context menu of the process tab *)

(** The shape shared by [terminate_selected], [kill_selected],
    [suspend_selected] and [resume_selected]: nothing happens without a
    selection; otherwise the text of the first selected item is read with
    [int], outside any handler, and the action runs on that pid. *)
Definition on_selected (act : Z -> Handler) : Handler :=
  fun st =>
    match first_selected_text st with
    | None => Done st
    | Some text =>
        match PyStr.py_int text with
        | None => Raised (OtherError "invalid literal for int()") st
        | Some pid => act pid st
        end
    end.

Definition terminate_selected (w : World) : Handler :=
  on_selected (terminate_pid w).

Definition kill_selected (w : World) : Handler := on_selected (kill_pid w).

Definition suspend_selected (w : World) : Handler :=
  on_selected (suspend_pid w).

Definition resume_selected (w : World) : Handler := on_selected (resume_pid w).





(** [hasattr(psutil, name)] *)
Definition psutil_hasattr (w : World) (name : string) : bool :=
  match w_psutil_const w name with Some _ => true | None => false end.

(** The list the "Set Priority" submenu is built from: each label with the
    value computed beside it. Only the label is handed on to
    [set_priority_by_value]. *)
Definition menu_priorities (w : World) : list (string * Z) :=
  [("Low", psutil_getattr w "IDLE_PRIORITY_CLASS" 19);
   ("Normal", psutil_getattr w "NORMAL_PRIORITY_CLASS" 0);
   ("High", psutil_getattr w "HIGH_PRIORITY_CLASS" (-5));
   ("Realtime", psutil_getattr w "REALTIME_PRIORITY_CLASS" (-20))].

Definition priority_constants : list string :=
  ["IDLE_PRIORITY_CLASS"; "NORMAL_PRIORITY_CLASS"; "HIGH_PRIORITY_CLASS";
   "REALTIME_PRIORITY_CLASS"].

(** psutil defines the priority-class constants on Windows and nowhere
    else. *)
Definition constants_match_platform (w : World) : Prop :=
  forall name, In name priority_constants ->
    psutil_hasattr w name = String.eqb (w_platform_system w) "Windows".

(** The table a refresh fills from the processes [rows]. *)
Definition table_of (w : World) (rows : list ProcInfo) : Table :=
  map (row_of w (gpu_dict_of w)) rows.

(** ** CSV export *)

Definition process_headers : list string :=
  ["PID"; "Name"; "User"; "CPU%"; "Memory%"; "Threads"; "Start"; "Status";
   "Disk Read"; "Disk Write"; "GPU%"; "Path"; "Cmdline"; "Nice"].

Definition services_headers : list string :=
  ["Name"; "Display Name"; "Status"; "PID"].

(** The rows [export_process_csv] and [export_services_csv] hand to the CSV
    writer: the header texts, then every table row with one field for each
    column, empty where the table has no item. *)
Definition export_rows (headers : list string) (t : Table)
  : list (list string) :=
  headers ::
  map (fun row =>
         map (fun c => or_default (nth_error row c) "")
           (seq 0 (length headers)))
    t.

(** [export_process_csv()]: [opened] is what opening and writing the file
    gives, [filename] the name built from the clock. *)
Definition export_process_csv (opened : Result unit) (filename : string)
  : Handler :=
  fun st =>
    match opened with
    | Val _ => Done (show (Information "Exported"
                             ("CSV saved as " ++ filename)) st)
    | Exc e => Done (show (Warning "Export"
                             ("Failed to save CSV: " ++ exn_str e)) st)
    end.

(** ** The network and services tabs *)

(** One entry of [psutil.net_connections(kind='inet')]. An address that is
    the empty tuple is [None]. *)
Record Conn : Type := mkConn {
  c_is_stream : bool;
  c_laddr : option (string * Z);
  c_raddr : option (string * Z);
  c_status : string;
  c_pid : option Z
}.

Definition addr_text (a : option (string * Z)) : string :=
  match a with
  | Some (ip, port) => ip ++ ":" ++ PyStr.str_int port
  | None => ""
  end.

(** [c.pid if c.pid else ""]: no pid and pid 0 both give the empty text. *)
Definition conn_pid (c : Conn) : option Z :=
  match c_pid c with
  | Some p => if Z.eqb p 0 then None else Some p
  | None => None
  end.

Definition conn_proc_name (w : World) (c : Conn) : string :=
  match conn_pid c with
  | None => ""
  | Some pid =>
      match (p <- w_Process w pid ;; ph_name p) with
      | Val n => n
      | Exc _ => ""
      end
  end.

Definition network_row (w : World) (c : Conn) : list string :=
  [if c_is_stream c then "TCP" else "UDP";
   addr_text (c_laddr c);
   addr_text (c_raddr c);
   c_status c;
   match conn_pid c with Some p => PyStr.str_int p | None => "" end;
   conn_proc_name w c].

(** [refresh_network()]: the rows of [net_table] and the boxes shown. *)
Definition refresh_network (w : World) (conns : Result (list Conn))
  : Table * list MessageBox :=
  match conns with
  | Val cs => (map (network_row w) cs, [])
  | Exc e =>
      ([], [Warning "Network" ("Failed to list connections: " ++ exn_str e)])
  end.

(** One entry of [psutil.win_service_iter()]: what its methods give. *)
Record Service : Type := mkService {
  s_name : Result string;
  s_display_name : Result string;
  s_status : Result string;
  s_pid : Result (option Z)
}.

(** The four cells of a service row, as far as they get set: a method that
    raises outside the inner [try] leaves the row with the cells before. *)
Definition service_cells (s : Service) : list string * option exn :=
  match s_name s with
  | Exc e => ([], Some e)
  | Val name =>
      match s_display_name s with
      | Exc e => ([name], Some e)
      | Val display =>
          match s_status s with
          | Exc e => ([name; display], Some e)
          | Val status =>
              let pid :=
                match s_pid s with
                | Val o => str_opt PyStr.str_int o
                | Exc _ => ""
                end in
              ([name; display; status; pid], None)
          end
      end
  end.

Fixpoint fill_services (ss : list Service) (rows : Table)
  : Table * option exn :=
  match ss with
  | [] => (rows, None)
  | s :: ss' =>
      match service_cells s with
      | (cells, None) => fill_services ss' (rows ++ [cells])%list
      | (cells, Some e) => ((rows ++ [cells])%list, Some e)
      end
  end.

Definition services_placeholder : string :=
  "Services listing not available on this platform".

(** [refresh_services()]: the rows of [services_table] and the boxes
    shown. *)
Definition refresh_services (w : World) (services : Result (list Service))
  : Table * list MessageBox :=
  if String.eqb (w_platform_system w) "Windows" then
    match services with
    | Exc e =>
        ([], [Warning "Services"
                ("Could not enumerate services: " ++ exn_str e)])
    | Val ss =>
        match fill_services ss [] with
        | (rows, None) => (rows, [])
        | (rows, Some e) =>
            (rows, [Warning "Services"
                      ("Could not enumerate services: " ++ exn_str e)])
        end
    end
  else ([[services_placeholder]], []).

(** ** The window of [main.py] *)

Module Main.

(** [PerfGraph] of [main.py]: two series, bound 20. *)
Record PerfGraph : Type := mkPerfGraph {
  x_data : list string;
  y_data : list float
}.

Definition init_graph : PerfGraph := mkPerfGraph [] [].

(** [update_graph()], with the reading and the clock text as arguments. *)
Definition update_graph (g : PerfGraph) (cpu : float) (t : string)
  : PerfGraph :=
  let xs := (x_data g ++ [t])%list in
  let ys := (y_data g ++ [cpu])%list in
  if (20 <? length xs)%nat
  then mkPerfGraph (pop0 xs) (pop0 ys)
  else mkPerfGraph xs ys.

Definition update_all (g : PerfGraph) (ps : list Point) : PerfGraph :=
  fold_left (fun g p => update_graph g (pt_cpu p) (pt_time p)) ps g.

(** The widgets the handlers of [main.py] read and write. Items, not
    rows, are selected here: [selected] lists the (row, column) of the
    selected items in the order [selectedItems()] gives them. *)
Record Window : Type := mkWindow {
  proc_table : Table;
  selected : list (nat * nat);
  history_table : Table;
  users_table : Table;
  shown : list MessageBox
}.

Inductive Outcome : Type :=
  | Done (st : Window)
  | Raised (e : exn) (st : Window).

Definition state_of (o : Outcome) : Window :=
  match o with Done st | Raised _ st => st end.

Definition raised (o : Outcome) : bool :=
  match o with Done _ => false | Raised _ _ => true end.

Definition show (m : MessageBox) (st : Window) : Window :=
  mkWindow (proc_table st) (selected st) (history_table st) (users_table st)
    (shown st ++ [m])%list.

(** The seven cells of a process row. *)
Definition row_of (w : World) (p : ProcInfo) : list string :=
  [PyStr.str_int (pi_pid p);
   str_opt (fun s => s) (pi_name p);
   str_opt (w_str_float w) (pi_cpu_percent p);
   str_opt (w_str_float w) (pi_memory_percent p);
   match pi_io_counters p with
   | Some (r, _) => PyStr.str_int r
   | None => "0"
   end;
   match pi_io_counters p with
   | Some (_, wr) => PyStr.str_int wr
   | None => "0"
   end;
   str_opt (fun s => s) (pi_status p)].

(** [refresh_processes()]: the table is emptied and refilled, then
    [log_history()] enumerates the processes again; neither enumeration
    is inside a handler. *)
Definition refresh_processes (w : World) (st : Window) : Outcome :=
  match w_process_iter w with
  | Exc e =>
      Raised e (mkWindow [] [] (history_table st) (users_table st) (shown st))
  | Val procs =>
      let table := map (row_of w) procs in
      match w_history_iter w with
      | Exc e =>
          Raised e
            (mkWindow table [] (history_table st) (users_table st) (shown st))
      | Val logged =>
          Done (mkWindow table []
                  (MainPy.log_history w logged (history_table st))
                  (users_table st) (shown st))
      end
  end.

(** [kill_task()] *)
Definition kill_task (w : World) (st : Window) : Outcome :=
  match selected st with
  | [] => Done st
  | (r, c) :: _ =>
      match cell (proc_table st) r c with
      | None => Done st
      | Some text =>
          match PyStr.py_int text with
          | None => Raised (OtherError "invalid literal for int()") st
          | Some pid =>
              match (p <- w_Process w pid ;; ph_kill p) with
              | Exc e => Done (show (Warning "Error" (exn_str e)) st)
              | Val _ =>
                  let st1 :=
                    show (Information "Success" "Process killed successfully")
                      st in
                  match refresh_processes w st1 with
                  | Done st2 => Done st2
                  | Raised e st2 => Done (show (Warning "Error" (exn_str e)) st2)
                  end
              end
          end
      end
  end.

End Main.

(** ** Predicates and examples for the further properties *)

(** The two series of the graph of [main.py] have one length, within 20. *)
Definition aligned_main (g : Main.PerfGraph) : Prop :=
  length (Main.y_data g) = length (Main.x_data g) /\
  (length (Main.x_data g) <= 20)%nat.

(** The five processes of highest CPU, and the others. *)
Definition top5 (procs : list ProcInfo) : list ProcInfo :=
  firstn 5 (sort_desc cpu_key procs).

Definition below_top5 (procs : list ProcInfo) : list ProcInfo :=
  skipn 5 (sort_desc cpu_key procs).

(** A process that ignores the request to stop: the wait runs out. *)
Definition stubborn_handle : ProcHandle :=
  mkProcHandle (Val "daemon") (Val "root") (Val "running") (Val 1000%Q)
    (Val 1) (Val 0%Q) (Val 0%Q) (Val (0, 0)) (Val "/usr/sbin/daemon")
    (Val ["daemon"]) (Val 0%nat) (Val 0%nat) (Val 0) (fun _ => Val tt)
    (Val tt) (Val tt)
    (fun _ => Exc (TimeoutExpired "timeout after 3 seconds (pid=77)"))
    (Val tt) (Val tt).

(** The same system with other answers from [psutil.Process]. *)
Definition with_Process (f : Z -> Result ProcHandle) (w : World) : World :=
  mkWorld (w_platform_system w) (w_psutil_const w) (w_GPU_AVAILABLE w)
    (w_getGPUs w) (w_process_iter w) (w_history_iter w) f (w_users w)
    (w_now_hms w) (w_strftime w) (w_str_datetime w) (w_str_float w).

(** The table every action leaves: the one a refresh builds. *)
Definition refreshed_table (w : World) (st : TaskManager) : Table :=
  table_of w (sample_rows (search_edit st) (snapshot_of (w_process_iter w))).

(** The four levels the menu offers. *)
Definition known_levels : list string := ["Low"; "Normal"; "High"; "Realtime"].

(** The text of the Started cell, empty when it cannot be computed. *)
Definition started_or_empty (w : World) (u : User) : string :=
  match started_text w u with Val s => s | Exc _ => "" end.

Definition user_row (w : World) (u : User) : list string :=
  [u_name u; u_terminal u; started_or_empty w u].

(** Every login time of the list can be printed. *)
Definition printable (w : World) (us : list User) : Prop :=
  Forall (fun u => exists s, started_text w u = Val s) us.

Definition alice : User := mkUser "alice" "tty1" (inl 1000%Q).
Definition bob : User := mkUser "bob" "pts/0" (inr "unknown").

(** Every service of the list answers its name, display name and status. *)
Definition answering (ss : list Service) : Prop :=
  Forall (fun s => exists n d t,
            s_name s = Val n /\ s_display_name s = Val d /\ s_status s = Val t)
    ss.

(** The row of a service that answers. *)
Definition service_row (s : Service) : list string := fst (service_cells s).

Definition spooler : Service :=
  mkService (Val "Spooler") (Val "Print Spooler") (Val "running")
    (Val (Some 1200)).

Definition stopped_service : Service :=
  mkService (Val "Fax") (Val "Fax") (Val "stopped") (Val None).

Definition guarded_service : Service :=
  mkService (Val "WinDefend") (Val "Defender") (Val "running")
    (Exc (AccessDenied "psutil.AccessDenied")).

Definition kernel_conn : Conn :=
  mkConn false (Some ("0.0.0.0", 68)) None "NONE" None.

Definition ssh_conn : Conn :=
  mkConn true (Some ("10.0.0.5", 22)) (Some ("10.0.0.9", 50122))
    "ESTABLISHED" (Some 4242).


(** A system on which pid 4242 is gone and the process of every other pid
    exits right after [psutil.Process] found it. *)
Definition racing_world : World :=
  with_Process
    (fun pid =>
       if Z.eqb pid 4242 then Exc (NoSuchProcess "process no longer exists")
       else Val vanishing_handle)
    (linux_world [process4]).

(** * Properties *)

(** ** [human_bytes] *)

Example human_bytes_1536 : human_bytes_int 1536 = "1.50 KB".
Proof. vm_compute. reflexivity. Qed.

Example human_bytes_0 : human_bytes_int 0 = "0.00 B".
Proof. vm_compute. reflexivity. Qed.

Example human_bytes_big : human_bytes_int (5 * 1024 ^ 5) = "5120.00 TB".
Proof. vm_compute. reflexivity. Qed.

Lemma uint_digits (d : Decimal.uint) :
  PyStr.all_digits (NilEmpty.string_of_uint d) = true.
Proof. induction d; simpl; auto. Qed.

Lemma uint_nonempty (d : Decimal.uint) :
  d <> Decimal.Nil -> NilEmpty.string_of_uint d <> "".
Proof. destruct d; simpl; congruence. Qed.

Lemma pos_to_uint_not_nil (p : positive) : Pos.to_uint p <> Decimal.Nil.
Proof.
  intro H.
  assert (E : Pos.of_uint (Pos.to_uint p) = N.pos p)
    by apply DecimalPos.Unsigned.of_to.
  rewrite H in E. simpl in E. discriminate.
Qed.

Lemma str_int_nonneg (z : Z) :
  0 <= z ->
  PyStr.str_int z <> "" /\ PyStr.all_digits (PyStr.str_int z) = true.
Proof.
  intros Hz. unfold PyStr.str_int.
  destruct z as [|p|p]; [split; [discriminate | reflexivity] | | lia].
  simpl. unfold NilZero.string_of_uint.
  pose proof (pos_to_uint_not_nil p) as Hn.
  destruct (Pos.to_uint p) eqn:E; try congruence;
    rewrite <- E; (split; [apply uint_nonempty; congruence | apply uint_digits]).
Qed.

Lemma digit_char_digit (d : Z) :
  0 <= d <= 9 -> PyStr.is_digit (PyFloat.digit_char d) = true.
Proof.
  intros H.
  assert (C : d = 0 \/ d = 1 \/ d = 2 \/ d = 3 \/ d = 4 \/ d = 5 \/ d = 6 \/
              d = 7 \/ d = 8 \/ d = 9) by lia.
  repeat (destruct C as [C | C]; [subst; reflexivity | ]).
  subst; reflexivity.
Qed.

Lemma round_half_even_nonneg (q : Q) :
  (0 <= q)%Q -> 0 <= PyFloat.round_half_even q.
Proof.
  intros Hq. unfold PyFloat.round_half_even.
  assert (Ha : 0 <= Qnum q).
  { unfold Qle in Hq. simpl in Hq. lia. }
  assert (Hf : 0 <= Qnum q / Z.pos (Qden q))
    by (apply Z.div_pos; lia).
  destruct (Z.compare (2 * (Qnum q mod Z.pos (Qden q))) (Z.pos (Qden q)));
    [destruct (Z.even _) | | ]; lia.
Qed.

Lemma format_2f_decimal (q : Q) : is_decimal_2f (PyFloat.format_2f (Fin q)).
Proof.
  unfold PyFloat.format_2f.
  set (m := PyFloat.round_half_even (Qabs q * 100)).
  assert (Hm : 0 <= m).
  { apply round_half_even_nonneg.
    apply Qmult_le_0_compat; [apply Qabs_nonneg | discriminate]. }
  assert (Hi : 0 <= m / 100) by (apply Z.div_pos; lia).
  destruct (str_int_nonneg _ Hi) as [Hne Hdig].
  assert (H1 : 0 <= (m mod 100) / 10 <= 9).
  { pose proof (Z.mod_pos_bound m 100 ltac:(lia)).
    split; [apply Z.div_pos; lia | ].
    apply Z.lt_succ_r. apply Z.div_lt_upper_bound; lia. }
  assert (H2 : 0 <= m mod 10 <= 9)
    by (pose proof (Z.mod_pos_bound m 10 ltac:(lia)); lia).
  destruct (Qlt_le_dec q 0).
  - exists "-", (PyStr.str_int (m / 100)),
      (PyFloat.digit_char ((m mod 100) / 10)), (PyFloat.digit_char (m mod 10)).
    repeat split; auto using digit_char_digit.
  - exists "", (PyStr.str_int (m / 100)),
      (PyFloat.digit_char ((m mod 100) / 10)), (PyFloat.digit_char (m mod 10)).
    repeat split; auto using digit_char_digit.
Qed.


Lemma same_kind_refl (a : float) : same_kind a a.
Proof. destruct a; exact I. Qed.

Lemma same_kind_div (a b : float) (d : Q) :
  same_kind a b -> same_kind a (PyFloat.div_pos b d).
Proof. destruct a, b; simpl; auto. Qed.

Lemma scale_loop_kind (fuel : nat) :
  forall x y i, same_kind x y -> same_kind x (fst (scale_loop fuel y i)).
Proof.
  induction fuel as [|fuel IH]; intros x y i H; cbn [scale_loop]; auto.
  destruct (PyFloat.ge y (Fin step) && (i <? length units - 1)%nat); auto.
  apply IH. now apply same_kind_div.
Qed.

Lemma scale_loop_index (fuel : nat) :
  forall x i, (i <= 4)%nat -> (snd (scale_loop fuel x i) <= 4)%nat.
Proof.
  induction fuel as [|fuel IH]; intros x i H; simpl; auto.
  destruct (PyFloat.ge x (Fin step)); simpl; auto.
  destruct (Nat.ltb_spec i 4); simpl; auto.
  apply IH. lia.
Qed.

(** With at least [4 - i] iterations allowed the loop stops because its
    guard is false, not because the allowance ran out. *)
Lemma scale_loop_exits (fuel : nat) :
  forall x i, (4 - i <= fuel)%nat ->
    scale_guard (fst (scale_loop fuel x i)) (snd (scale_loop fuel x i)) = false.
Proof.
  induction fuel as [|fuel IH]; intros x i H; cbn [scale_loop].
  - unfold scale_guard. simpl.
    destruct (Nat.ltb_spec i 4); [lia | apply andb_false_r].
  - destruct (PyFloat.ge x (Fin step) && (i <? length units - 1)%nat) eqn:G.
    + apply IH. lia.
    + exact G.
Qed.

Lemma scale_loop_more (fuel : nat) :
  forall x i extra, (4 - i <= fuel)%nat ->
    scale_loop (fuel + extra) x i = scale_loop fuel x i.
Proof.
  induction fuel as [|fuel IH]; intros x i extra H.
  - simpl. destruct extra; cbn [scale_loop]; auto.
    change (length units - 1)%nat with 4%nat.
    destruct (Nat.ltb_spec i 4); [lia | ].
    now rewrite andb_false_r.
  - cbn [scale_loop Nat.add].
    destruct (PyFloat.ge x (Fin step) && (i <? length units - 1)%nat); auto.
    apply IH. lia.
Qed.

Lemma nth_units (i : nat) : (i <= 4)%nat -> In (nth i units "") units.
Proof.
  intros H. apply nth_In. simpl. lia.
Qed.

(** C10. [human_bytes] is a total function. When [float(n)] raises the
    result is exactly "0 B". Otherwise the result is a number text, a space
    and one of the five units; the number text is a decimal numeral with two
    fraction digits for a finite value and Python's word for a non-finite
    one. The scaling loop stops by its own guard within four iterations:
    more iterations allowed change nothing, and the guard is false on
    exit. *)
Theorem human_bytes_total (PyObj : Type) (py_float : PyObj -> option float)
  (n : PyObj) :
  match py_float n with
  | None => human_bytes PyObj py_float n = "0 B"
  | Some x =>
      (exists num unit,
          human_bytes PyObj py_float n = num ++ " " ++ unit /\
          In unit units /\
          match x with
          | Fin _ => is_decimal_2f num
          | PInf => num = "inf"
          | NInf => num = "-inf"
          | NaN => num = "nan"
          end) /\
      (forall extra, scale_loop (4 + extra) x 0 = scale_loop 4 x 0) /\
      scale_guard (fst (scale_loop 4 x 0)) (snd (scale_loop 4 x 0)) = false
  end.
Proof.
  unfold human_bytes. destruct (py_float n) as [x|]; [ | reflexivity].
  split; [ | split].
  - change (length units - 1)%nat with 4%nat.
    pose proof (scale_loop_kind 4 x x 0 (same_kind_refl x)) as K.
    pose proof (scale_loop_index 4 x 0 ltac:(lia)) as I.
    destruct (scale_loop 4 x 0) as [x' i]; simpl in K, I.
    exists (PyFloat.format_2f x'), (nth i units "").
    split; [reflexivity | split; [now apply nth_units | ]].
    destruct x, x'; simpl in K; try contradiction; try reflexivity.
    apply format_2f_decimal.
  - intros extra. apply scale_loop_more. lia.
  - apply scale_loop_exits. lia.
Qed.

(** ** Chart buffers *)

Section Series.

Context {A : Type}.
Implicit Types (l : list A) (n : nat).

Lemma tl_skipn n l : tl (skipn n l) = skipn (S n) l.
Proof.
  revert l. induction n as [|n IH]; intros [|a l]; simpl; auto.
Qed.

Lemma lastn_short n l : (length l <= n)%nat -> lastn n l = l.
Proof.
  intros H. unfold lastn.
  replace (length l - n)%nat with 0%nat by lia. reflexivity.
Qed.

Lemma lastn_length n l : length (lastn n l) = Nat.min n (length l).
Proof. unfold lastn. rewrite length_skipn. lia. Qed.

(** Appending one element and keeping the last [n] is [bpush]. *)
Lemma lastn_snoc n l (x : A) :
  lastn n (l ++ [x]) = bpush n (lastn n l) x.
Proof.
  unfold bpush, pop0.
  rewrite length_app, lastn_length. simpl.
  destruct (Nat.ltb_spec n (Nat.min n (length l) + 1)) as [H | H].
  - unfold lastn. rewrite length_app. simpl.
    replace (length l + 1 - n)%nat with (S (length l - n)) by lia.
    rewrite <- tl_skipn, skipn_app.
    replace (length l - n - length l)%nat with 0%nat by lia.
    reflexivity.
  - rewrite (lastn_short n l) by lia.
    apply lastn_short. rewrite length_app. simpl. lia.
Qed.

Lemma fold_bpush n (xs : list A) :
  forall h, fold_left (bpush n) xs (lastn n h) = lastn n (h ++ xs).
Proof.
  induction xs as [|x xs IH]; intros h; simpl.
  - now rewrite app_nil_r.
  - rewrite <- lastn_snoc, IH, <- app_assoc. reflexivity.
Qed.

(** Once more than [n] elements were appended, nothing older is left. *)
Lemma lastn_app_long n l (xs : list A) :
  (n <= length xs)%nat -> lastn n (l ++ xs) = lastn n xs.
Proof.
  intros H. unfold lastn. rewrite length_app, skipn_app.
  replace (length l + length xs - n - length l)%nat
    with (length xs - n)%nat by lia.
  rewrite skipn_all2 by lia. reflexivity.
Qed.

End Series.

Lemma lastn_map {A B : Type} (f : A -> B) (n : nat) (l : list A) :
  lastn n (map f l) = map f (lastn n l).
Proof. unfold lastn. now rewrite length_map, skipn_map. Qed.

Lemma bpush_length {A : Type} (n : nat) (l : list A) (x : A) :
  (length l <= n)%nat ->
  length (bpush n l x) = Nat.min n (length l + 1).
Proof.
  intros H. unfold bpush, pop0. rewrite length_app. simpl.
  destruct (Nat.ltb_spec n (length l + 1)).
  - destruct l; simpl in *; [lia | ]. rewrite length_app. simpl. lia.
  - rewrite length_app. simpl. lia.
Qed.

(** On an aligned chart [push] treats the three series alike: each gets
    its value appended and, on overflow, loses its oldest. *)
Lemma push_series (c : MiniProcChart) (cpu mem : float) (t : string) :
  aligned c ->
  let n := Z.to_nat (mc_maxlen c) in
  MiniProcChart_.push c cpu mem t =
    mkMiniProcChart (bpush n (mc_cpu_data c) cpu) (bpush n (mc_mem_data c) mem)
      (bpush n (mc_times c) t) (mc_maxlen c).
Proof.
  intros (Hc & Hm & Hb) n. unfold MiniProcChart_.push, bpush.
  rewrite !length_app, Hc, Hm. simpl.
  destruct (Z.gtb_spec (Z.of_nat (length (mc_times c) + 1)) (mc_maxlen c));
    destruct (Nat.ltb_spec n (length (mc_times c) + 1)); try reflexivity;
    subst n; lia.
Qed.

Lemma push_aligned (c : MiniProcChart) (cpu mem : float) (t : string) :
  aligned c -> aligned (MiniProcChart_.push c cpu mem t).
Proof.
  intros H. rewrite push_series by assumption.
  destruct H as (Hc & Hm & Hb). unfold aligned. simpl.
  rewrite !bpush_length by lia. lia.
Qed.

Lemma push_all_series (ps : list Point) :
  forall c, aligned c ->
    let n := Z.to_nat (mc_maxlen c) in
    let c' := push_all c ps in
    mc_cpu_data c' = fold_left (bpush n) (map pt_cpu ps) (mc_cpu_data c) /\
    mc_mem_data c' = fold_left (bpush n) (map pt_mem ps) (mc_mem_data c) /\
    mc_times c' = fold_left (bpush n) (map pt_time ps) (mc_times c) /\
    mc_maxlen c' = mc_maxlen c /\
    aligned c'.
Proof.
  induction ps as [|p ps IH]; intros c H; simpl.
  - auto.
  - pose proof (push_aligned c (pt_cpu p) (pt_mem p) (pt_time p) H) as H'.
    specialize (IH _ H'). simpl in IH.
    rewrite push_series in IH by assumption. simpl in IH.
    rewrite push_series by assumption. exact IH.
Qed.

(** The system graph is a chart of bound 40: [update_graph] is [push]. *)
Lemma update_graph_as_chart (g : PerfGraph) (cpu mem : float) (t : string) :
  graph_as_chart (PerfGraph_.update_graph g cpu mem t) =
  MiniProcChart_.push (graph_as_chart g) cpu mem t.
Proof.
  unfold PerfGraph_.update_graph, MiniProcChart_.push, graph_as_chart. simpl.
  destruct (Nat.ltb_spec 40 (length (pg_x_data g ++ [t])));
    destruct (Z.gtb_spec (Z.of_nat (length (pg_x_data g ++ [t]))) 40);
    try reflexivity; lia.
Qed.

Lemma update_all_as_chart (ps : list Point) :
  forall g, graph_as_chart (update_all g ps) = push_all (graph_as_chart g) ps.
Proof.
  induction ps as [|p ps IH]; intros g; simpl; auto.
  unfold update_all, push_all in *. simpl.
  rewrite IH, update_graph_as_chart. reflexivity.
Qed.

Lemma aligned_graph_chart (g : PerfGraph) :
  aligned_graph g -> aligned (graph_as_chart g).
Proof. intros (H1 & H2 & H3). unfold aligned. simpl. lia. Qed.

(** After more pushes than the bound, each series holds its values of the
    last [maxlen] pushes, in push order. *)
Lemma push_all_latest (c : MiniProcChart) (ps : list Point) :
  aligned c ->
  mc_maxlen c < Z.of_nat (length ps) ->
  let kept := lastn (Z.to_nat (mc_maxlen c)) ps in
  let c' := push_all c ps in
  length kept = Z.to_nat (mc_maxlen c) /\
  mc_times c' = map pt_time kept /\
  mc_cpu_data c' = map pt_cpu kept /\
  mc_mem_data c' = map pt_mem kept /\
  aligned c'.
Proof.
  intros H Hlen kept c'.
  destruct (push_all_series ps c H) as (Ec & Em & Et & _ & Ha).
  destruct H as (Hc & Hm & Hb).
  set (n := Z.to_nat (mc_maxlen c)) in *.
  assert (Hn : (n <= length ps)%nat) by (subst n; lia).
  assert (K : forall (B : Type) (f : Point -> B) (l : list B),
             (length l <= n)%nat ->
             fold_left (bpush n) (map f ps) l = map f kept).
  { intros B f l Hl. rewrite <- (lastn_short n l) at 1 by assumption.
    rewrite fold_bpush, lastn_app_long by (rewrite length_map; lia).
    apply lastn_map. }
  split; [subst kept; rewrite lastn_length; lia | ].
  subst c'. rewrite Et, Ec, Em.
  rewrite !K by (subst n; lia). auto.
Qed.

(** C6. A chart whose series are aligned and within the bound, after more
    pushes than the bound, holds exactly [maxlen] points: those of the last
    [maxlen] pushes, in push order, the three series index by index from
    the same pushes, and it stays aligned. This is so for the per-process
    chart (bound 30 by default) and for the system graph (bound 40).
    [clear] empties each of the three series of any chart and keeps the
    bound, so a cleared chart plots nothing, is aligned, and takes pushes
    as a new chart does. *)
Theorem chart_buffer_keeps_latest
  (c any : MiniProcChart) (g : PerfGraph) (ps qs : list Point) :
  aligned c ->
  mc_maxlen c < Z.of_nat (length ps) ->
  aligned_graph g ->
  (40 < length qs)%nat ->
  let kept := lastn (Z.to_nat (mc_maxlen c)) ps in
  let c' := push_all c ps in
  let kept40 := lastn 40 qs in
  let g' := update_all g qs in
  let again := push_all (MiniProcChart_.clear c') ps in
  mc_maxlen MiniProcChart_.default = 30 /\
  (length kept = Z.to_nat (mc_maxlen c) /\
   mc_times c' = map pt_time kept /\
   mc_cpu_data c' = map pt_cpu kept /\
   mc_mem_data c' = map pt_mem kept /\
   aligned c' /\
   MiniProcChart_.snapshot c' =
     (map pt_time kept, map pt_cpu kept, map pt_mem kept)) /\
  (length kept40 = 40%nat /\
   pg_x_data g' = map pt_time kept40 /\
   pg_cpu_data g' = map pt_cpu kept40 /\
   pg_mem_data g' = map pt_mem kept40 /\
   aligned_graph g' /\
   PerfGraph_.snapshot g' =
     (map pt_time kept40, map pt_cpu kept40, map pt_mem kept40)) /\
  (mc_times (MiniProcChart_.clear any) = [] /\
   mc_cpu_data (MiniProcChart_.clear any) = [] /\
   mc_mem_data (MiniProcChart_.clear any) = [] /\
   mc_maxlen (MiniProcChart_.clear any) = mc_maxlen any /\
   MiniProcChart_.snapshot (MiniProcChart_.clear any) = ([], [], [])) /\
  (aligned (MiniProcChart_.clear c) /\
   aligned (MiniProcChart_.clear c') /\
   mc_times again = map pt_time kept /\
   mc_cpu_data again = map pt_cpu kept /\
   mc_mem_data again = map pt_mem kept).
Proof.
  intros Hc Hps Hg Hqs kept c' kept40 g' again.
  assert (Hclear : forall x, aligned x -> aligned (MiniProcChart_.clear x)).
  { intros x (_ & _ & Hb). unfold aligned. simpl. lia. }
  destruct (push_all_latest c ps Hc Hps) as (L & Et & Ec & Em & Ha).
  fold kept in L, Et, Ec, Em. fold c' in Et, Ec, Em, Ha.
  assert (Hm : mc_maxlen c' = mc_maxlen c).
  { destruct (push_all_series ps c Hc) as (_ & _ & _ & H & _). exact H. }
  split; [reflexivity | ].
  split.
  { unfold MiniProcChart_.snapshot. rewrite Et, Ec, Em. auto 7. }
  split.
  { pose proof (aligned_graph_chart g Hg) as Hag.
    destruct (push_all_latest (graph_as_chart g) qs Hag)
      as (L' & Et' & Ec' & Em' & Ha').
    { simpl. lia. }
    rewrite <- update_all_as_chart in Et', Ec', Em', Ha'.
    simpl in L', Et', Ec', Em'.
    change (Z.to_nat 40) with 40%nat in *.
    fold kept40 in L', Et', Ec', Em'. fold g' in Et', Ec', Em', Ha'.
    unfold PerfGraph_.snapshot. rewrite Et', Ec', Em'.
    assert (Hag' : aligned_graph g').
    { destruct Ha' as (H1 & H2 & H3). unfold aligned_graph.
      simpl in H1, H2, H3. lia. }
    auto 7. }
  split; [repeat split | ].
  split; [now apply Hclear | ]. split; [now apply Hclear | ].
  destruct (push_all_latest (MiniProcChart_.clear c') ps (Hclear c' Ha))
    as (_ & Et2 & Ec2 & Em2 & _).
  { simpl. lia. }
  simpl in Et2, Ec2, Em2. rewrite Hm in Et2, Ec2, Em2.
  fold kept in Et2, Ec2, Em2. fold again in Et2, Ec2, Em2. auto.
Qed.

Lemma chart_buffer_keeps_latest_witness :
  let c' := push_all MiniProcChart_.default (readings 31) in
  let g' := update_all PerfGraph_.init (readings 41) in
  mc_times c' = map pt_time (lastn 30 (readings 31)) /\
  pg_x_data g' = map pt_time (lastn 40 (readings 41)) /\
  MiniProcChart_.snapshot (MiniProcChart_.clear c') = ([], [], []).
Proof.
  assert (Hc : aligned MiniProcChart_.default)
    by (unfold aligned; simpl; lia).
  assert (Hg : aligned_graph PerfGraph_.init)
    by (unfold aligned_graph; simpl; lia).
  assert (Hps : mc_maxlen MiniProcChart_.default
                < Z.of_nat (length (readings 31))) by (simpl; lia).
  assert (Hqs : (40 < length (readings 41))%nat) by (simpl; lia).
  destruct (chart_buffer_keeps_latest MiniProcChart_.default
              (push_all MiniProcChart_.default (readings 31)) PerfGraph_.init
              (readings 31) (readings 41) Hc Hps Hg Hqs)
    as (_ & (_ & Et & _) & (_ & Ex & _) & (_ & _ & _ & _ & Hs) & _).
  split; [exact Et | split; [exact Ex | exact Hs]].
Defined.

Example chart_41_pushes :
  map pt_time (lastn 40 (readings 41)) = map pt_time (tl (readings 41)) /\
  pg_x_data (update_all PerfGraph_.init (readings 41))
  = map pt_time (tl (readings 41)).
Proof. split; vm_compute; reflexivity. Qed.

(** ** Sorting by CPU *)

Section SortDesc.

Context {A : Type} (key : A -> Q).

Lemma insert_desc_perm (x : A) (l : list A) :
  Permutation (insert_desc key x l) (x :: l).
Proof.
  induction l as [|y l IH]; simpl; auto.
  destruct (Qle_bool (key y) (key x)); auto.
  rewrite IH. apply perm_swap.
Qed.

Lemma sort_desc_perm (l : list A) : Permutation (sort_desc key l) l.
Proof.
  induction l as [|x l IH]; simpl; auto.
  rewrite insert_desc_perm. now constructor.
Qed.

Lemma insert_desc_sorted (x : A) (l : list A) :
  StronglySorted (desc_by key) l ->
  StronglySorted (desc_by key) (insert_desc key x l).
Proof.
  induction 1 as [|y l Hs IH Hy]; simpl.
  - repeat constructor.
  - destruct (Qle_bool (key y) (key x)) eqn:E.
    + apply Qle_bool_iff in E.
      constructor; [now constructor | ].
      constructor; [exact E | ].
      eapply Forall_impl; [ | exact Hy].
      intros z Hz. unfold desc_by in *. eapply Qle_trans; eassumption.
    + assert (Hlt : (key x < key y)%Q).
      { apply Qnot_le_lt. intro H. apply Qle_bool_iff in H. congruence. }
      constructor; [exact IH | ].
      rewrite (insert_desc_perm x l).
      constructor; [apply Qlt_le_weak; exact Hlt | exact Hy].
Qed.

Lemma sort_desc_sorted (l : list A) :
  StronglySorted (desc_by key) (sort_desc key l).
Proof.
  induction l as [|x l IH]; simpl; [constructor | ].
  now apply insert_desc_sorted.
Qed.

(** An insertion never moves an element across one of equal key. *)
Lemma insert_desc_stable (q : Q) (x : A) (l : list A) :
  with_key key q (insert_desc key x l) = with_key key q (x :: l).
Proof.
  unfold with_key.
  induction l as [|y l IH]; simpl; auto.
  destruct (Qle_bool (key y) (key x)) eqn:E; [reflexivity | ].
  simpl. rewrite IH. simpl.
  destruct (Qeq_bool (key x) q) eqn:Ex;
    destruct (Qeq_bool (key y) q) eqn:Ey; try reflexivity.
  exfalso.
  apply Qeq_bool_iff in Ex. apply Qeq_bool_iff in Ey.
  assert (H : (key y <= key x)%Q) by (rewrite Ex, Ey; apply Qle_refl).
  apply Qle_bool_iff in H. congruence.
Qed.

Lemma sort_desc_stable (q : Q) (l : list A) :
  with_key key q (sort_desc key l) = with_key key q l.
Proof.
  induction l as [|x l IH]; simpl; auto.
  rewrite insert_desc_stable. unfold with_key in *. simpl.
  now rewrite IH.
Qed.

End SortDesc.

(** Updating the details pane leaves the tables and the selection alone. *)
Lemma update_selected_details_keeps (w : World) (st : TaskManager) :
  let st' := state_of (update_selected_details w st) in
  proc_table st' = proc_table st /\
  proc_selected st' = proc_selected st /\
  history_table st' = history_table st /\
  users_table st' = users_table st /\
  shown st' = shown st.
Proof.
  unfold update_selected_details.
  destruct (first_selected_text st) as [text|]; [ | simpl; auto].
  destruct (PyStr.py_int text) as [pid|]; [ | simpl; auto].
  destruct (w_Process w pid) as [p|e]; [ | simpl; auto].
  destruct (details_head w pid p); simpl; auto.
Qed.

(** C4. After [refresh_processes] the process table shows the filtered
    snapshot in descending order of CPU, a missing reading counting as 0;
    the order is stable, the rows of one CPU value keeping the order they
    had in the snapshot. The snapshot (1, 10), (2, 50), (3, 50) with an
    empty filter gives the pids 2, 3, 1. *)
Theorem process_rows_sorted_stable (w : World) (st : TaskManager) :
  let snapshot := snapshot_of (w_process_iter w) in
  let kept := filter_procs (search_edit st) snapshot in
  let rows := sample_rows (search_edit st) snapshot in
  proc_table (state_of (refresh_processes w st))
    = map (row_of w (gpu_dict_of w)) rows /\
  StronglySorted (desc_by cpu_key) rows /\
  Permutation rows kept /\
  (forall q, with_key cpu_key q rows = with_key cpu_key q kept) /\
  (forall pid, cpu_key (proc pid None) = 0%Q) /\
  map pi_pid
    (sample_rows "" [proc 1 (Some 10%Q); proc 2 (Some 50%Q); proc 3 (Some 50%Q)])
  = [2; 3; 1].
Proof.
  intros snapshot kept rows. split.
  - unfold refresh_processes.
    destruct (update_selected_details_keeps w (rebuild_table w st)) as [E _].
    rewrite E. reflexivity.
  - subst rows kept. unfold sample_rows. repeat split.
    + apply sort_desc_sorted.
    + apply sort_desc_perm.
    + intros q. apply sort_desc_stable.
Qed.

Example sorted_with_missing_cpu :
  map pi_pid
    (sample_rows "" [proc 1 None; proc 2 (Some 0.5%Q); proc 3 (Some 0%Q);
                     proc 4 (Some 7%Q); proc 5 None])
  = [4; 2; 1; 3; 5].
Proof. reflexivity. Qed.

(** ** Filtering by the search text *)

Lemma prefix_spec (q s : string) :
  prefix q s = true <-> exists b, s = q ++ b.
Proof.
  revert s. induction q as [|c q IH]; intros s; simpl.
  - split; [intros _; now exists s | intros _; now destruct s].
  - destruct s as [|d s]; simpl.
    + split; [discriminate | intros [b H]; discriminate].
    + destruct (ascii_dec c d) as [-> | N].
      * rewrite IH. split; intros [b H]; exists b; congruence.
      * split; [discriminate | intros [b H]; congruence].
Qed.

Lemma contains_spec (q s : string) :
  PyStr.contains q s = true <-> occurs_in q s.
Proof.
  unfold occurs_in. induction s as [|c s IH].
  - cbn [PyStr.contains]. rewrite orb_false_r, prefix_spec. split.
    + intros [b H]. now exists "", b.
    + intros (a & b & H). destruct a; [now exists b | discriminate].
  - cbn [PyStr.contains]. rewrite orb_true_iff, prefix_spec, IH. split.
    + intros [[b H] | (a & b & H)].
      * now exists "", b.
      * exists (String c a), b. simpl. congruence.
    + intros (a & b & H). destruct a as [|d a].
      * left. now exists b.
      * right. exists a, b. simpl in H. congruence.
Qed.

Lemma is_empty_spec (s : string) : PyStr.is_empty s = true <-> s = "".
Proof. destruct s; simpl; split; congruence. Qed.

Lemma is_space_lower (c : ascii) :
  PyStr.is_space (PyStr.lower_ascii c) = PyStr.is_space c.
Proof. destruct c as [[] [] [] [] [] [] [] []]; reflexivity. Qed.

Lemma lower_lstrip (s : string) :
  PyStr.lower (PyStr.lstrip s) = PyStr.lstrip (PyStr.lower s).
Proof.
  induction s as [|c s IH]; simpl; auto.
  rewrite is_space_lower. destruct (PyStr.is_space c); auto.
Qed.

Lemma lower_rstrip (s : string) :
  PyStr.lower (PyStr.rstrip s) = PyStr.rstrip (PyStr.lower s).
Proof.
  induction s as [|c s IH]; simpl; auto.
  rewrite <- IH, is_space_lower.
  destruct (PyStr.rstrip s); simpl; auto.
  destruct (PyStr.is_space c); auto.
Qed.

Lemma lower_strip (s : string) :
  PyStr.lower (PyStr.strip s) = PyStr.strip (PyStr.lower s).
Proof. unfold PyStr.strip. now rewrite lower_rstrip, lower_lstrip. Qed.

Lemma lower_empty (s : string) : PyStr.lower s = "" <-> s = "".
Proof. destruct s; simpl; split; congruence. Qed.

Lemma lower_digits (s : string) :
  PyStr.all_digits s = true -> PyStr.lower s = s.
Proof.
  induction s as [|c s IH]; simpl; auto.
  intros H. apply andb_true_iff in H as [Hc Hs].
  rewrite (IH Hs). f_equal.
  destruct c as [[] [] [] [] [] [] [] []]; try reflexivity; discriminate.
Qed.

Lemma lower_str_int (z : Z) : PyStr.lower (PyStr.str_int z) = PyStr.str_int z.
Proof.
  destruct (Z_lt_le_dec z 0) as [H | H].
  - destruct z as [|p|p]; try lia.
    unfold PyStr.str_int. simpl. f_equal.
    pose proof (str_int_nonneg (Z.pos p) ltac:(lia)) as [_ Hd].
    unfold PyStr.str_int in Hd. simpl in Hd.
    now apply lower_digits.
  - apply lower_digits. now apply str_int_nonneg.
Qed.

(** What [matches] decides, for the query the code computes. *)
Lemma matches_spec (text : string) (p : ProcInfo) :
  matches (search_query text) p = true <-> retained_by (PyStr.strip text) p.
Proof.
  unfold matches, retained_by, ci_occurs_in, search_query.
  rewrite lower_str_int, (lower_strip text).
  rewrite !orb_true_iff, !contains_spec, is_empty_spec.
  rewrite <- (lower_strip text), lower_empty.
  tauto.
Qed.

Lemma filter_true {A : Type} (f : A -> bool) (l : list A) :
  (forall x, f x = true) -> filter f l = l.
Proof.
  intros H. induction l as [|x l IH]; simpl; auto.
  rewrite H, IH. reflexivity.
Qed.

(** C5, as the code has it. The filter text is first stripped of the
    whitespace around it. A row of the snapshot is retained if and only if
    that stripped text is empty or occurs, case ignored, in the row's name,
    pid text, user name or joined command line. The result is a subset of
    the snapshot, and an empty filter keeps every row. *)
Theorem filter_retains_matching
  (text : string) (S : list ProcInfo) (p : ProcInfo) :
  (In p (filter_procs text S) <->
   In p S /\ retained_by (PyStr.strip text) p) /\
  incl (filter_procs text S) S /\
  filter_procs "" S = S.
Proof.
  unfold filter_procs. split; [ | split].
  - rewrite filter_In, matches_spec. reflexivity.
  - apply incl_filter.
  - apply filter_true. intros x. reflexivity.
Qed.

(** C5 as stated fails: a filter text of one space keeps a row in which no
    space occurs. *)
Lemma filter_claim_counterexample :
  ~ (In init_proc (filter_procs " " [init_proc]) <->
     In init_proc [init_proc] /\ retained_by " " init_proc).
Proof.
  intros [H _].
  assert (Hin : In init_proc (filter_procs " " [init_proc]))
    by (vm_compute; auto).
  destruct (H Hin) as [_ R].
  unfold retained_by, ci_occurs_in in R.
  destruct R as [R | [R | [R | [R | R]]]];
    [discriminate | | | | ];
    apply contains_spec in R; vm_compute in R; discriminate.
Qed.

Example filter_examples :
  map pi_pid (filter_procs "INIT" [proc 7 None; init_proc]) = [1] /\
  map pi_pid (filter_procs "7" [proc 7 None; init_proc]) = [7] /\
  map pi_pid (filter_procs " Root " [proc 7 None; init_proc]) = [1] /\
  map pi_pid (filter_procs "zz" [proc 7 None; init_proc]) = [].
Proof. repeat split. Qed.

(** ** The history log *)

Example history_one_tick :
  map (fun row => nth 1 row "")
    (history_table
       (state_of (refresh_history_log (linux_world five_procs) new_window)))
  = ["12"; "13"; "15"; "14"; "11"].
Proof. vm_compute. reflexivity. Qed.

(** One call appends the rows of the top five and then removes at most one
    row, however far above the bound the table is. *)
Lemma log_top5_length (w : World) (procs : list ProcInfo) (t : Table) :
  let k := Nat.min 5 (length procs) in
  length (log_top5 w procs t) =
    if (history_cap <? length t + k)%nat
    then (length t + k - 1)%nat
    else (length t + k)%nat.
Proof.
  intros k. unfold log_top5, removeRow0.
  set (rows := map (history_row w) (firstn 5 (sort_desc cpu_key procs))).
  assert (Hk : length rows = k).
  { subst rows. rewrite length_map, length_firstn.
    rewrite (Permutation_length (sort_desc_perm cpu_key procs)). reflexivity. }
  assert (Hl : length (t ++ rows) = (length t + k)%nat)
    by (rewrite length_app; lia).
  rewrite Hl.
  destruct (history_cap <? length t + k)%nat; [ | exact Hl].
  destruct (t ++ rows)%list; simpl in *; lia.
Qed.

(** The first version of the window never removes a history row. *)
Lemma log_history_length (w : World) (procs : list ProcInfo) (t : Table) :
  length (MainPy.log_history w procs t) = (length t + length procs)%nat.
Proof. unfold MainPy.log_history. now rewrite length_app, length_map. Qed.

(** C1, the code at the failing input. With five processes running, the
    first hundred ticks complete and fill the history to 500 rows; the next
    tick completes too, appends five rows and removes one, and leaves 504
    rows. *)
Theorem history_exceeds_cap :
  let w := linux_world five_procs in
  let after100 := run_ticks (repeat w 100) new_window in
  let after101 := run_ticks (repeat w 101) new_window in
  raised after100 = false /\
  length (history_table (state_of after100)) = 500%nat /\
  raised after101 = false /\
  length (history_table (state_of after101)) = 504%nat.
Proof.
  intros w after100 after101.
  split; [vm_compute; reflexivity | ].
  split; [vm_compute; reflexivity | ].
  split; vm_compute; reflexivity.
Qed.


(** ** Priority levels *)

Example nice_values_unix :
  map (nice_value (linux_world [])) ["Low"; "Normal"; "High"; "Realtime"]
  = [19; 0; -5; -20].
Proof. reflexivity. Qed.

Example nice_values_windows :
  map (nice_value (windows_world []))
    ["Low"; "Normal"; "High"; "Realtime"; "Bogus"]
  = [64; 32; 128; 256; 32].
Proof. reflexivity. Qed.

(** Off Windows the level "Bogus" falls into the last branch and gets the
    nice value of Realtime, -20, not the 0 of Normal. *)
Theorem unknown_level_unix (w : World) :
  w_platform_system w <> "Windows" ->
  nice_value w "Bogus" = -20 /\
  nice_value w "Bogus" = nice_value w "Realtime" /\
  nice_value w "Bogus" <> nice_value w "Normal".
Proof.
  intros H. unfold nice_value.
  destruct (String.eqb_spec (w_platform_system w) "Windows") as [E | _];
    [contradiction | ].
  repeat split. discriminate.
Qed.

Lemma unknown_level_unix_witness :
  nice_value (linux_world []) "Bogus" = -20 /\
  nice_value (linux_world []) "Bogus" = nice_value (linux_world []) "Realtime" /\
  nice_value (linux_world []) "Bogus" <> nice_value (linux_world []) "Normal".
Proof.
  apply (unknown_level_unix (linux_world [])). simpl. discriminate.
Defined.

(** What the user sees: an unprivileged request for "Bogus" is refused as
    a request for a negative nice value is, one for "Normal" goes through. *)
Example set_priority_bogus :
  shown (state_of (set_priority_by_value (linux_world [init_proc]) 1 "Bogus"
                     new_window))
  = [Warning "Priority" "Could not set priority: psutil.AccessDenied"] /\
  shown (state_of (set_priority_by_value (linux_world [init_proc]) 1 "Normal"
                     new_window))
  = [Information "Priority" "Set priority Normal for PID 1"].
Proof. split; vm_compute; reflexivity. Qed.

(** ** Refreshing the process table *)

Lemma find_in_empty (text : string) : findItems text [] = [].
Proof. reflexivity. Qed.

(** C8. When the enumeration of the processes raises, [refresh_processes]
    returns, and the table it leaves has no row. *)
Theorem provider_failure_gives_no_rows
  (w : World) (st : TaskManager) (e : exn) :
  w_process_iter w = Exc e ->
  exists st', refresh_processes w st = Done st' /\ proc_table st' = [].
Proof.
  intros H. unfold refresh_processes, rebuild_table. rewrite H. simpl.
  unfold update_selected_details, first_selected_text. simpl.
  assert (R : restore_selection (selected_pid_of st) [] = []).
  { unfold restore_selection. destruct (selected_pid_of st); reflexivity. }
  rewrite R. eexists. split; reflexivity.
Qed.

Lemma provider_failure_gives_no_rows_witness :
  let w := with_process_iter (Exc (AccessDenied "psutil.AccessDenied"))
             (linux_world [init_proc]) in
  exists st', refresh_processes w new_window = Done st' /\ proc_table st' = [].
Proof.
  intros w.
  apply (provider_failure_gives_no_rows w new_window
           (AccessDenied "psutil.AccessDenied")).
  reflexivity.
Defined.

(** ** Process actions *)

(** When no process has the pid, so that [psutil.Process(pid)] raises
    [NoSuchProcess], Terminate and Kill each catch it, report "Process does
    not exist." in an information box, and go on to the refresh with no
    exception pending: what the handler then does is what the refresh
    does. *)
Theorem stop_missing_process
  (w : World) (pid : Z) (msg : string) (st : TaskManager) :
  w_Process w pid = Exc (NoSuchProcess msg) ->
  terminate_pid w pid st =
    refresh_processes w
      (show (Information "Terminate" "Process does not exist.") st) /\
  kill_pid w pid st =
    refresh_processes w
      (show (Information "Kill" "Process does not exist.") st) /\
  shown (state_of (terminate_pid w pid st)) =
    (shown st ++ [Information "Terminate" "Process does not exist."])%list /\
  shown (state_of (kill_pid w pid st)) =
    (shown st ++ [Information "Kill" "Process does not exist."])%list.
Proof.
  intros H.
  assert (T : terminate_pid w pid st =
              refresh_processes w
                (show (Information "Terminate" "Process does not exist.") st)).
  { unfold terminate_pid, finally, stop_process. rewrite H. simpl.
    destruct (refresh_processes w _); reflexivity. }
  assert (K : kill_pid w pid st =
              refresh_processes w
                (show (Information "Kill" "Process does not exist.") st)).
  { unfold kill_pid, finally, stop_process. rewrite H. simpl.
    destruct (refresh_processes w _); reflexivity. }
  repeat split; auto.
  - rewrite T. unfold refresh_processes.
    destruct (update_selected_details_keeps w
                (rebuild_table w
                   (show (Information "Terminate" "Process does not exist.") st)))
      as (_ & _ & _ & _ & S).
    rewrite S. reflexivity.
  - rewrite K. unfold refresh_processes.
    destruct (update_selected_details_keeps w
                (rebuild_table w
                   (show (Information "Kill" "Process does not exist.") st)))
      as (_ & _ & _ & _ & S).
    rewrite S. reflexivity.
Qed.

Lemma stop_missing_process_witness :
  let w := linux_world [init_proc] in
  terminate_pid w 4242 new_window =
    refresh_processes w
      (show (Information "Terminate" "Process does not exist.") new_window) /\
  kill_pid w 4242 new_window =
    refresh_processes w
      (show (Information "Kill" "Process does not exist.") new_window) /\
  shown (state_of (terminate_pid w 4242 new_window)) =
    (shown new_window
     ++ [Information "Terminate" "Process does not exist."])%list /\
  shown (state_of (kill_pid w 4242 new_window)) =
    (shown new_window ++ [Information "Kill" "Process does not exist."])%list.
Proof.
  intros w.
  apply (stop_missing_process w 4242 "process no longer exists" new_window).
  reflexivity.
Defined.

Example terminate_missing_returns :
  raised (terminate_pid (linux_world [init_proc]) 4242 new_window) = false /\
  raised (kill_pid (linux_world [init_proc]) 4242 new_window) = false.
Proof. split; vm_compute; reflexivity. Qed.

(** ** The refresh tick *)

(** C7, the code at the failing input. [refresh_users] calls
    [psutil.users()] outside any handler: when that call raises in a tick
    whose process refresh returned, the exception leaves [auto_refresh], the
    GPU label and the history log are not reached, and the run of ticks
    ends there. *)
Theorem users_failure_leaves_tick
  (w : World) (ws : list World) (st st1 : TaskManager) (e : exn) :
  refresh_processes w st = Done st1 ->
  w_users w = Exc e ->
  auto_refresh w st = Raised e (set_users_table [] st1) /\
  run_ticks (w :: ws) st = Raised e (set_users_table [] st1).
Proof.
  intros Hp Hu.
  assert (A : auto_refresh w st = Raised e (set_users_table [] st1)).
  { unfold auto_refresh, and_then. rewrite Hp.
    unfold refresh_users. rewrite Hu. reflexivity. }
  split; [exact A | ]. simpl. rewrite A. reflexivity.
Qed.

Lemma users_failure_leaves_tick_witness :
  let w := with_users (Exc (OtherError "[Errno 13] Permission denied"))
             (linux_world [init_proc]) in
  exists st1,
    auto_refresh w new_window =
      Raised (OtherError "[Errno 13] Permission denied")
        (set_users_table [] st1) /\
    run_ticks [w; w] new_window =
      Raised (OtherError "[Errno 13] Permission denied")
        (set_users_table [] st1).
Proof.
  intros w.
  exists (state_of (refresh_processes w new_window)).
  apply (users_failure_leaves_tick w [w] new_window
           (state_of (refresh_processes w new_window))
           (OtherError "[Errno 13] Permission denied")).
  - vm_compute. reflexivity.
  - reflexivity.
Defined.

(** The other unguarded calls: a selected process that exits between
    [psutil.Process(pid)] and [p.name()] ends the tick as well. *)
Example vanished_selection_leaves_tick :
  let w := linux_world [init_proc] in
  let w' :=
    mkWorld (w_platform_system w) (w_psutil_const w) (w_GPU_AVAILABLE w)
      (w_getGPUs w) (w_process_iter w) (w_history_iter w)
      (fun _ => Val vanishing_handle) (w_users w) (w_now_hms w)
      (w_strftime w) (w_str_datetime w) (w_str_float w) in
  let selected :=
    set_proc_table (map (row_of w []) [init_proc]) [0%nat] new_window in
  raised (auto_refresh w selected) = false /\
  raised (auto_refresh w' selected) = true.
Proof. split; vm_compute; reflexivity. Qed.

(** ** Keeping the selection across a refresh *)

Example selection_follows_process :
  let w := linux_world [worker9; process4] in
  let before := window_with_selected w [process4; worker9] 0 in
  selected_pid_of before = Some 4 /\
  map pi_pid (sample_rows "" [worker9; process4]) = [9; 4] /\
  proc_selected (state_of (refresh_processes w before)) = [1%nat] /\
  restored_selection (state_of (refresh_processes w before)) = Some 4.
Proof. repeat split; vm_compute; reflexivity. Qed.

(** C3, the code at the failing input. The row of process 4 is selected;
    at the next sample process 4 is gone and process 9, with four threads,
    runs. [findItems] looks for the text "4" in every column, finds it in
    the Threads cell of the row of process 9 and selects that row: the
    selection handed back is process 9, not none. *)
Theorem selection_lands_on_other_process :
  let w := linux_world [worker9] in
  let before := window_with_selected w [process4] 0 in
  let after := state_of (refresh_processes w before) in
  selected_pid_of before = Some 4 /\
  map pi_pid (sample_rows (search_edit before) (snapshot_of (w_process_iter w)))
    = [9] /\
  findItems "4" (proc_table after) = [(0%nat, 5%nat)] /\
  restored_selection after = Some 9.
Proof.
  intros w before after.
  split; [vm_compute; reflexivity | ].
  split; [vm_compute; reflexivity | ].
  split; vm_compute; reflexivity.
Qed.

(** *** [int(str(n))] is [n] *)

Lemma lstrip_no_space (s : string) : no_space s = true -> PyStr.lstrip s = s.
Proof.
  destruct s as [|c s]; simpl; auto.
  intros H. apply andb_true_iff in H as [Hc _].
  destruct (PyStr.is_space c); [discriminate | reflexivity].
Qed.

Lemma rstrip_no_space (s : string) : no_space s = true -> PyStr.rstrip s = s.
Proof.
  induction s as [|c s IH]; simpl; auto.
  intros H. apply andb_true_iff in H as [Hc Hs].
  rewrite (IH Hs). destruct s; auto.
  destruct (PyStr.is_space c); [discriminate | reflexivity].
Qed.

Lemma strip_no_space (s : string) : no_space s = true -> PyStr.strip s = s.
Proof.
  intros H. unfold PyStr.strip.
  rewrite (lstrip_no_space s H). now apply rstrip_no_space.
Qed.

Lemma digit_not_space (c : ascii) :
  PyStr.is_digit c = true -> PyStr.is_space c = false.
Proof. destruct c as [[] [] [] [] [] [] [] []]; try discriminate; reflexivity. Qed.

Lemma digits_no_space (s : string) :
  PyStr.all_digits s = true -> no_space s = true.
Proof.
  induction s as [|c s IH]; simpl; auto.
  intros H. apply andb_true_iff in H as [Hc Hs].
  rewrite (digit_not_space c Hc), (IH Hs). reflexivity.
Qed.

Lemma py_int_unsigned (c : ascii) (rest : string) :
  PyStr.all_digits (String c rest) = true ->
  PyStr.py_int (String c rest) = PyStr.int_of_digits (String c rest).
Proof.
  intros H. unfold PyStr.py_int.
  rewrite (strip_no_space _ (digits_no_space _ H)).
  simpl in H. apply andb_true_iff in H as [Hc _].
  destruct c as [[] [] [] [] [] [] [] []]; try discriminate; reflexivity.
Qed.

Lemma int_of_digits_str (z : Z) :
  0 <= z -> PyStr.int_of_digits (PyStr.str_int z) = Some z.
Proof.
  intros Hz. destruct (str_int_nonneg z Hz) as [Hne Hd].
  assert (Hemp : PyStr.is_empty (PyStr.str_int z) = false)
    by (destruct (PyStr.str_int z); [congruence | reflexivity]).
  unfold PyStr.int_of_digits. rewrite Hemp, Hd.
  unfold PyStr.str_int. rewrite NilZero.isi.
  - cbn [option_map]. f_equal. apply DecimalZ.of_to.
  - destruct z; simpl; try discriminate.
    intros H. injection H as H. now apply pos_to_uint_not_nil in H.
  - destruct z; simpl; discriminate.
Qed.

Lemma py_int_str_int (z : Z) : PyStr.py_int (PyStr.str_int z) = Some z.
Proof.
  destruct z as [|p|p].
  - reflexivity.
  - destruct (str_int_nonneg (Z.pos p) ltac:(lia)) as [Hne Hd].
    pose proof (int_of_digits_str (Z.pos p) ltac:(lia)) as Hi.
    destruct (PyStr.str_int (Z.pos p)) eqn:E; [congruence | ].
    rewrite py_int_unsigned by exact Hd. exact Hi.
  - destruct (str_int_nonneg (Z.pos p) ltac:(lia)) as [Hne Hd].
    pose proof (int_of_digits_str (Z.pos p) ltac:(lia)) as Hi.
    assert (E : PyStr.str_int (Z.neg p) = String "-" (PyStr.str_int (Z.pos p)))
      by reflexivity.
    rewrite E. unfold PyStr.py_int.
    rewrite strip_no_space by (simpl; now apply digits_no_space).
    rewrite Hi. reflexivity.
Qed.

(** *** The part of the selection rule that holds *)

Lemma find_in_column_In (text : string) (t : Table) (c r c' : nat) :
  In (r, c') (find_in_column text t c) <-> c' = c /\ cell t r c = Some text.
Proof.
  unfold find_in_column. rewrite in_flat_map. split.
  - intros (r0 & _ & H).
    destruct (cell t r0 c) as [s|] eqn:E; [ | contradiction].
    destruct (String.eqb_spec s text) as [-> | _]; [ | contradiction].
    destruct H as [H | []]. injection H as <- <-. auto.
  - intros [-> H]. exists r. split.
    + apply in_seq. unfold cell in H.
      destruct (nth_error t r) eqn:E; [ | discriminate].
      assert (r < length t)%nat by (apply nth_error_Some; congruence). lia.
    + rewrite H, String.eqb_refl. now left.
Qed.

(** A match in the PID column comes before every match elsewhere. *)
Lemma findItems_pid_column (text : string) (t : Table) (r : nat) :
  cell t r 0 = Some text ->
  exists r' rest,
    findItems text t = (r', 0%nat) :: rest /\ cell t r' 0 = Some text.
Proof.
  intros H. unfold findItems. change (seq 0 column_count) with (0%nat :: seq 1 13).
  cbn [flat_map].
  assert (Hin : In (r, 0%nat) (find_in_column text t 0))
    by (apply find_in_column_In; auto).
  destruct (find_in_column text t 0) as [|[r' c'] l] eqn:E; [contradiction | ].
  assert (Hh : In (r', c') (find_in_column text t 0)) by (rewrite E; now left).
  apply find_in_column_In in Hh as [-> Hc].
  exists r', (l ++ flat_map (find_in_column text t) (seq 1 13))%list. auto.
Qed.

(** When the pid that was selected is among the new rows, the row
    selected after the refresh is a row of that pid. *)
Lemma selection_restored_when_present
  (w : World) (st : TaskManager) (pid : Z) :
  selected_pid_of st = Some pid ->
  In pid (map pi_pid
            (sample_rows (search_edit st) (snapshot_of (w_process_iter w)))) ->
  restored_selection (state_of (refresh_processes w st)) = Some pid.
Proof.
  intros Hsel Hin.
  unfold restored_selection, selected_pid_of, first_selected_text,
    refresh_processes.
  destruct (update_selected_details_keeps w (rebuild_table w st))
    as (Et & Es & _).
  rewrite Et, Es. unfold rebuild_table. cbn [proc_table proc_selected set_proc_table].
  rewrite Hsel. unfold restore_selection.
  set (rows := sample_rows (search_edit st) (snapshot_of (w_process_iter w))) in *.
  set (t := map (row_of w (gpu_dict_of w)) rows).
  apply in_map_iff in Hin as (p & Hp & Hin).
  assert (Hrow : In (row_of w (gpu_dict_of w) p) t) by (now apply in_map).
  apply In_nth_error in Hrow as (r & Hr).
  assert (Hc : cell t r 0 = Some (PyStr.str_int pid)).
  { unfold cell. rewrite Hr. subst pid. reflexivity. }
  destruct (findItems_pid_column _ _ _ Hc) as (r' & rest & Ef & Hc').
  rewrite Ef, Hc'. apply py_int_str_int.
Qed.

(** * Further properties *)

(** ** [human_bytes]: what the scaling gives *)

Lemma inject_pow_succ (j : nat) :
  (inject_Z (1024 ^ Z.of_nat (S j)) == 1024 * inject_Z (1024 ^ Z.of_nat j))%Q.
Proof.
  rewrite Nat2Z.inj_succ, Z.pow_succ_r by lia.
  rewrite inject_Z_mult. reflexivity.
Qed.

Lemma scale_loop_fin (fuel : nat) :
  forall (q : Q) (i : nat),
    (4 - i <= fuel)%nat -> (i <= 4)%nat ->
    exists (q' : Q) (j : nat),
      scale_loop fuel (Fin q) i = (Fin q', (i + j)%nat) /\
      (i + j <= 4)%nat /\
      (q == q' * inject_Z (1024 ^ Z.of_nat j))%Q /\
      ((i + j)%nat = 4%nat \/ (q' < 1024)%Q) /\
      (j = 0%nat \/ (1 <= q')%Q).
Proof.
  assert (Hone : forall x : Q, (x == x * inject_Z (1024 ^ Z.of_nat 0))%Q).
  { intros x. change (inject_Z (1024 ^ Z.of_nat 0)) with 1%Q.
    now rewrite Qmult_1_r. }
  induction fuel as [|fuel IH]; intros q i Hf Hi.
  - exists q, 0%nat. cbn [scale_loop]. rewrite Nat.add_0_r.
    split; [reflexivity | ]. split; [lia | ]. split; [apply Hone | ].
    split; left; lia.
  - cbn [scale_loop]. change (length units - 1)%nat with 4%nat.
    unfold PyFloat.ge, step.
    destruct (Qle_bool 1024%Q q) eqn:G; simpl andb.
    + destruct (Nat.ltb_spec i 4) as [Hlt | Hge].
      * apply Qle_bool_iff in G.
        destruct (IH (q / 1024)%Q (i + 1)%nat ltac:(lia) ltac:(lia))
          as (q' & j & E & Hb & Hq & Hstop & Hlow).
        exists q', (S j).
        replace (i + S j)%nat with (i + 1 + j)%nat by lia.
        split; [exact E | ]. split; [exact Hb | ].
        assert (Hq1 : (q == 1024 * (q / 1024))%Q)
          by (symmetry; apply Qmult_div_r; discriminate).
        split; [ | split; [exact Hstop | right]].
        -- rewrite inject_pow_succ. rewrite Hq1 at 1. rewrite Hq. ring.
        -- destruct Hlow as [-> | Hlow]; [ | exact Hlow].
           rewrite <- (Hone q') in Hq. rewrite <- Hq.
           apply Qle_shift_div_l; [reflexivity | ]. now rewrite Qmult_1_l.
      * exists q, 0%nat. rewrite Nat.add_0_r.
        split; [reflexivity | ]. split; [lia | ]. split; [apply Hone | ].
        split; left; lia.
    + exists q, 0%nat. rewrite Nat.add_0_r.
      split; [reflexivity | ]. split; [lia | ]. split; [apply Hone | ].
      split; [right | left; reflexivity].
      apply Qnot_le_lt. intro H. apply Qle_bool_iff in H. congruence.
Qed.

Lemma float_of_int_exact (z : Z) :
  Z.abs z < 2 ^ 53 -> float_of_int z = Some (Fin (inject_Z z)).
Proof.
  intros H. unfold float_of_int.
  destruct (Z.ltb_spec (Z.abs z) (2 ^ 53)); [reflexivity | lia].
Qed.

(** X1. For a byte count [z] below 2^53 in absolute value, where
    [float(z)] is exact, [human_bytes] prints a value [q'] and the unit of
    index [i] with [z = q' * 1024^i]: the count is scaled, not changed. The
    value is below 1024 unless the unit is already TB, and at least 1
    unless the unit is B. *)
Theorem human_bytes_scaling (z : Z) :
  Z.abs z < 2 ^ 53 ->
  exists (q' : Q) (i : nat),
    human_bytes_int z = PyFloat.format_2f (Fin q') ++ " " ++ nth i units "" /\
    (i <= 4)%nat /\
    (inject_Z z == q' * inject_Z (1024 ^ Z.of_nat i))%Q /\
    (i = 4%nat \/ (q' < 1024)%Q) /\
    (i = 0%nat \/ (1 <= q')%Q).
Proof.
  intros Hz.
  destruct (scale_loop_fin 4 (inject_Z z) 0 ltac:(lia) ltac:(lia))
    as (q' & i & E & Hb & Hq & Hstop & Hlow).
  exists q', i. cbn [Nat.add] in E, Hb, Hstop.
  unfold human_bytes_int, human_bytes. rewrite (float_of_int_exact z Hz).
  change (length units - 1)%nat with 4%nat. rewrite E. auto.
Qed.

Lemma human_bytes_scaling_witness :
  exists (q' : Q) (i : nat),
    human_bytes_int 5368709120
      = PyFloat.format_2f (Fin q') ++ " " ++ nth i units "" /\
    (i <= 4)%nat /\
    (inject_Z 5368709120 == q' * inject_Z (1024 ^ Z.of_nat i))%Q /\
    (i = 4%nat \/ (q' < 1024)%Q) /\
    (i = 0%nat \/ (1 <= q')%Q).
Proof.
  apply (human_bytes_scaling 5368709120). vm_compute. reflexivity.
Defined.

Example human_bytes_units :
  map human_bytes_int [1023; 1024; 1048576; 1073741824; 1099511627776]
  = ["1023.00 B"; "1.00 KB"; "1.00 MB"; "1.00 GB"; "1.00 TB"].
Proof. vm_compute. reflexivity. Qed.

(** From 2^53 on [float] rounds the count before it is scaled, and from
    2^1024 on it raises, so that "0 B" is printed. *)
Example human_bytes_rounded :
  human_bytes_int 9007336693694465 = "8192.12 TB" /\
  float_of_int (2 ^ 53 + 1) = Some (Fin (inject_Z (2 ^ 53))) /\
  float_of_int (2 ^ 53 + 3) = Some (Fin (inject_Z (2 ^ 53 + 4))) /\
  float_of_int (2 ^ 1024 - 2 ^ 970) = None /\
  human_bytes_int (2 ^ 1024) = "0 B".
Proof. repeat split; vm_compute; reflexivity. Qed.

(** ** Chart buffers below and at the bound *)

(** X2. Whatever is pushed into an aligned chart, the chart stays aligned
    and within its bound: each series is the last [maxlen] elements of its
    old content followed by the pushed values, so nothing is dropped while
    there is room and never more than [maxlen] points are held. *)
Theorem chart_within_bound (c : MiniProcChart) (ps : list Point) :
  aligned c ->
  let n := Z.to_nat (mc_maxlen c) in
  let c' := push_all c ps in
  aligned c' /\
  mc_times c' = lastn n (mc_times c ++ map pt_time ps) /\
  mc_cpu_data c' = lastn n (mc_cpu_data c ++ map pt_cpu ps) /\
  mc_mem_data c' = lastn n (mc_mem_data c ++ map pt_mem ps) /\
  length (mc_times c') = Nat.min n (length (mc_times c) + length ps).
Proof.
  intros H n c'.
  destruct (push_all_series ps c H) as (Ec & Em & Et & _ & Ha).
  fold c' in Ec, Em, Et, Ha. fold n in Ec, Em, Et.
  destruct H as (Hc & Hm & Hb).
  assert (K : forall (B : Type) (l xs : list B),
             (length l <= n)%nat ->
             fold_left (bpush n) xs l = lastn n (l ++ xs)).
  { intros B l xs Hl. rewrite <- (lastn_short n l) at 1 by assumption.
    apply fold_bpush. }
  rewrite K in Ec, Em, Et by (subst n; lia).
  split; [exact Ha | ]. split; [exact Et | ].
  split; [exact Ec | ]. split; [exact Em | ].
  rewrite Et, lastn_length, length_app, length_map. reflexivity.
Qed.

Lemma chart_within_bound_witness :
  let c' := push_all MiniProcChart_.default (readings 7) in
  aligned c' /\
  mc_times c' = lastn 30 (map pt_time (readings 7)) /\
  length (mc_times c') = 7%nat.
Proof.
  assert (Hc : aligned MiniProcChart_.default)
    by (unfold aligned; simpl; lia).
  destruct (chart_within_bound MiniProcChart_.default (readings 7) Hc)
    as (Ha & Et & _ & _ & Hl).
  split; [exact Ha | split; [exact Et | exact Hl]].
Defined.

(** ** The graph of [main.py] *)

Lemma main_update_series (g : Main.PerfGraph) (cpu : float) (t : string) :
  aligned_main g ->
  Main.update_graph g cpu t =
    Main.mkPerfGraph (bpush 20 (Main.x_data g) t) (bpush 20 (Main.y_data g) cpu).
Proof.
  intros [Hy Hx]. unfold Main.update_graph, bpush.
  rewrite !length_app, Hy. simpl.
  destruct (20 <? length (Main.x_data g) + 1)%nat; reflexivity.
Qed.

Lemma main_update_aligned (g : Main.PerfGraph) (cpu : float) (t : string) :
  aligned_main g -> aligned_main (Main.update_graph g cpu t).
Proof.
  intros H. rewrite main_update_series by assumption.
  destruct H as [Hy Hx]. unfold aligned_main. simpl.
  rewrite !bpush_length by lia. lia.
Qed.

Lemma main_update_all_series (ps : list Point) :
  forall g, aligned_main g ->
    let g' := Main.update_all g ps in
    Main.x_data g' = fold_left (bpush 20) (map pt_time ps) (Main.x_data g) /\
    Main.y_data g' = fold_left (bpush 20) (map pt_cpu ps) (Main.y_data g) /\
    aligned_main g'.
Proof.
  induction ps as [|p ps IH]; intros g H; simpl; auto.
  pose proof (main_update_aligned g (pt_cpu p) (pt_time p) H) as H'.
  specialize (IH _ H'). simpl in IH.
  rewrite main_update_series in IH by assumption. simpl in IH.
  unfold Main.update_all in *. simpl.
  rewrite main_update_series by assumption. exact IH.
Qed.

(** X3. The CPU graph of [main.py] keeps its two series aligned and holds
    at most 20 points: after any run of updates each series is the last 20
    elements of its old content followed by the new readings. *)
Theorem main_graph_keeps_latest (g : Main.PerfGraph) (ps : list Point) :
  aligned_main g ->
  let g' := Main.update_all g ps in
  aligned_main g' /\
  Main.x_data g' = lastn 20 (Main.x_data g ++ map pt_time ps) /\
  Main.y_data g' = lastn 20 (Main.y_data g ++ map pt_cpu ps) /\
  length (Main.x_data g') = Nat.min 20 (length (Main.x_data g) + length ps).
Proof.
  intros H g'.
  destruct (main_update_all_series ps g H) as (Ex & Ey & Ha).
  fold g' in Ex, Ey, Ha. destruct H as [Hy Hx].
  assert (K : forall (B : Type) (l xs : list B),
             (length l <= 20)%nat ->
             fold_left (bpush 20) xs l = lastn 20 (l ++ xs)).
  { intros B l xs Hl. rewrite <- (lastn_short 20 l) at 1 by assumption.
    apply fold_bpush. }
  rewrite K in Ex, Ey by lia.
  split; [exact Ha | ]. split; [exact Ex | ]. split; [exact Ey | ].
  rewrite Ex, lastn_length, length_app, length_map. reflexivity.
Qed.

Lemma main_graph_keeps_latest_witness :
  let g' := Main.update_all Main.init_graph (readings 21) in
  aligned_main g' /\
  Main.x_data g' = lastn 20 (map pt_time (readings 21)) /\
  length (Main.x_data g') = 20%nat.
Proof.
  assert (H : aligned_main Main.init_graph)
    by (unfold aligned_main; simpl; lia).
  destruct (main_graph_keeps_latest Main.init_graph (readings 21) H)
    as (Ha & Ex & _ & Hl).
  split; [exact Ha | split; [exact Ex | exact Hl]].
Defined.

(** ** Refreshing with nothing selected *)

(** X4. With no row selected, [refresh_processes] returns whatever the
    provider does: no row is selected afterwards, the details pane reads
    "No process selected.", the process chart is the old one cleared, each
    of its three series empty, and the table is the one built from the
    sample. *)
Theorem refresh_without_selection (w : World) (st : TaskManager) :
  proc_selected st = [] ->
  exists st',
    refresh_processes w st = Done st' /\
    proc_selected st' = [] /\
    details_text st' = "No process selected." /\
    proc_chart st' = MiniProcChart_.clear (proc_chart st) /\
    mc_times (proc_chart st') = [] /\
    mc_cpu_data (proc_chart st') = [] /\
    mc_mem_data (proc_chart st') = [] /\
    MiniProcChart_.snapshot (proc_chart st') = ([], [], []) /\
    proc_table st' =
      table_of w (sample_rows (search_edit st) (snapshot_of (w_process_iter w))).
Proof.
  intros H.
  unfold refresh_processes, rebuild_table, selected_pid_of, first_selected_text.
  rewrite H. cbn [restore_selection].
  unfold update_selected_details, first_selected_text. simpl.
  eexists. repeat split.
Qed.

Lemma refresh_without_selection_witness :
  exists st',
    refresh_processes
      (with_process_iter (Exc (AccessDenied "psutil.AccessDenied"))
         (linux_world [init_proc])) new_window = Done st' /\
    proc_selected st' = [] /\
    details_text st' = "No process selected." /\
    proc_chart st' = MiniProcChart_.clear (proc_chart new_window).
Proof.
  destruct (refresh_without_selection
              (with_process_iter (Exc (AccessDenied "psutil.AccessDenied"))
                 (linux_world [init_proc])) new_window eq_refl)
    as (st' & E & Hs & Hd & Hc & _).
  exists st'. auto.
Defined.

(** ** The selection across a refresh *)

(** X5. When the pid of the selected row is among the rows of the new
    sample, the refresh selects exactly one row, the PID cell of that row
    is the text of that pid, and the pid read back from the selection is
    the same pid. *)
Theorem selected_pid_survives_refresh
  (w : World) (st : TaskManager) (pid : Z) :
  selected_pid_of st = Some pid ->
  In pid (map pi_pid
            (sample_rows (search_edit st) (snapshot_of (w_process_iter w)))) ->
  let st' := state_of (refresh_processes w st) in
  restored_selection st' = Some pid /\
  exists r,
    proc_selected st' = [r] /\
    cell (proc_table st') r 0 = Some (PyStr.str_int pid).
Proof.
  intros Hsel Hin st'.
  split; [now apply selection_restored_when_present | ].
  subst st'. unfold refresh_processes.
  destruct (update_selected_details_keeps w (rebuild_table w st))
    as (Et & Es & _).
  rewrite Et, Es. unfold rebuild_table.
  cbn [proc_table proc_selected set_proc_table].
  rewrite Hsel. unfold restore_selection.
  apply in_map_iff in Hin as (p & Hp & Hin).
  apply (in_map (row_of w (gpu_dict_of w))) in Hin.
  apply In_nth_error in Hin as (r & Hr).
  assert (Hc : cell (map (row_of w (gpu_dict_of w))
                       (sample_rows (search_edit st)
                          (snapshot_of (w_process_iter w)))) r 0
               = Some (PyStr.str_int pid)).
  { unfold cell. rewrite Hr. subst pid. reflexivity. }
  destruct (findItems_pid_column _ _ _ Hc) as (r' & rest & Ef & Hc').
  rewrite Ef. exists r'. auto.
Qed.

Lemma selected_pid_survives_refresh_witness :
  let w := linux_world [worker9; process4] in
  let before := window_with_selected w [process4; worker9] 0 in
  let st' := state_of (refresh_processes w before) in
  restored_selection st' = Some 4 /\
  exists r,
    proc_selected st' = [r] /\
    cell (proc_table st') r 0 = Some (PyStr.str_int 4).
Proof.
  intros w before.
  apply (selected_pid_survives_refresh w before 4).
  - vm_compute. reflexivity.
  - vm_compute. right. left. reflexivity.
Defined.

(** ** Narrowing the search *)

Lemma append_assoc (a b c : string) : (a ++ b) ++ c = a ++ b ++ c.
Proof. induction a as [|x a IH]; simpl; congruence. Qed.

Lemma occurs_in_trans (a b c : string) :
  occurs_in a b -> occurs_in b c -> occurs_in a c.
Proof.
  intros (x & y & ->) (u & v & ->).
  exists (u ++ x), (y ++ v). now rewrite !append_assoc.
Qed.

Lemma occurs_in_empty (q : string) : occurs_in q "" -> q = "".
Proof.
  intros (a & b & H). destruct a; [ | discriminate].
  destruct q; [reflexivity | discriminate].
Qed.

(** X6. A search text whose query contains the query of another text as
    a substring never shows a row the other text hides: typing on, at
    either end of the query, only narrows the table. *)
Theorem narrower_search_fewer_rows
  (t1 t2 : string) (S : list ProcInfo) :
  occurs_in (search_query t1) (search_query t2) ->
  incl (filter_procs t2 S) (filter_procs t1 S).
Proof.
  intros Hq p Hp. unfold filter_procs in *.
  apply filter_In in Hp as [Hin Hm]. apply filter_In. split; [exact Hin | ].
  unfold matches in *.
  rewrite !orb_true_iff, !contains_spec, is_empty_spec in *.
  destruct Hm as [[[[He | H] | H] | H] | H].
  - rewrite He in Hq. apply occurs_in_empty in Hq. auto.
  - left; left; left; right. eapply occurs_in_trans; eassumption.
  - left; left; right. eapply occurs_in_trans; eassumption.
  - left; right. eapply occurs_in_trans; eassumption.
  - right. eapply occurs_in_trans; eassumption.
Qed.

Lemma narrower_search_fewer_rows_witness :
  incl (filter_procs "Work" [worker9; process4; init_proc])
       (filter_procs " or " [worker9; process4; init_proc]).
Proof.
  apply (narrower_search_fewer_rows " or " "Work").
  exists "w", "k". reflexivity.
Defined.

Example narrowing_example :
  map pi_pid (filter_procs " or " [worker9; process4; init_proc]) = [9; 4] /\
  map pi_pid (filter_procs "Work" [worker9; process4; init_proc]) = [9].
Proof. split; reflexivity. Qed.

(** ** What a history tick logs *)

Lemma sorted_app_order {A : Type} (R : A -> A -> Prop) (l1 l2 : list A) :
  StronglySorted R (l1 ++ l2) ->
  Forall (fun a => Forall (fun b => R a b) l2) l1.
Proof.
  induction l1 as [|x l1 IH]; simpl; intros H; [constructor | ].
  inversion H as [|? ? Hs Hx]; subst.
  constructor; [ | now apply IH].
  apply Forall_app in Hx. tauto.
Qed.

(** X7. The rows a history tick appends are those of the five processes
    of highest CPU, highest first, or of all of them when fewer run: every
    process logged has at least the CPU of every process left out, and the
    logged together with the left out are the enumerated processes. *)
Theorem history_logs_top_five
  (w : World) (procs : list ProcInfo) (t : Table) :
  let top := top5 procs in
  let rest := below_top5 procs in
  Permutation (top ++ rest) procs /\
  length top = Nat.min 5 (length procs) /\
  StronglySorted (desc_by cpu_key) top /\
  Forall (fun a => Forall (fun b => (cpu_key b <= cpu_key a)%Q) rest) top /\
  log_top5 w procs t =
    (if (history_cap <? length t + length top)%nat
     then removeRow0 (t ++ map (history_row w) top)%list
     else (t ++ map (history_row w) top)%list).
Proof.
  intros top rest. subst top rest. unfold top5, below_top5.
  pose proof (sort_desc_sorted cpu_key procs) as Hs.
  pose proof (sort_desc_perm cpu_key procs) as Hp.
  rewrite <- (firstn_skipn 5 (sort_desc cpu_key procs)) in Hs.
  split; [now rewrite firstn_skipn | ].
  split; [rewrite length_firstn, (Permutation_length Hp); reflexivity | ].
  split.
  { clear Hp. revert Hs.
    generalize (firstn 5 (sort_desc cpu_key procs)) as l1.
    generalize (skipn 5 (sort_desc cpu_key procs)) as l2.
    intros l2 l1. induction l1 as [|x l1 IH]; simpl; intros Hs;
      [constructor | ].
    inversion Hs as [|? ? Hs' Hx]; subst.
    constructor; [now apply IH | ].
    apply Forall_app in Hx. tauto. }
  split; [exact (sorted_app_order _ _ _ Hs) | ].
  unfold log_top5. rewrite length_app, length_map. reflexivity.
Qed.

Example history_top_five_example :
  map pi_pid (top5 (proc 16 (Some 1%Q) :: proc 17 None :: five_procs))
  = [12; 13; 15; 14; 11] /\
  map pi_pid (below_top5 (proc 16 (Some 1%Q) :: proc 17 None :: five_procs))
  = [16; 17].
Proof. split; reflexivity. Qed.

(** X8. [refresh_history_log] always returns and changes the history
    table only: every other widget is as before. When the enumeration
    raises, the history table is the one before. Otherwise it is the table
    [log_top5] gives: with [k] the smaller of 5 and the number of
    processes, it has [k] rows more, less one row when that takes it past
    500. *)
Theorem refresh_history_log_length (w : World) (st : TaskManager) :
  let table :=
    match w_history_iter w with
    | Exc _ => history_table st
    | Val procs => log_top5 w procs (history_table st)
    end in
  refresh_history_log w st =
    Done (mkTaskManager (search_edit st) (proc_table st) (proc_selected st)
            table (users_table st) (details_text st) (proc_chart st)
            (gpu_label st) (shown st)) /\
  length table =
    match w_history_iter w with
    | Exc _ => length (history_table st)
    | Val procs =>
        let k := Nat.min 5 (length procs) in
        if (500 <? length (history_table st) + k)%nat
        then (length (history_table st) + k - 1)%nat
        else (length (history_table st) + k)%nat
    end.
Proof.
  intros table. subst table. unfold refresh_history_log.
  destruct (w_history_iter w) as [procs | e].
  - split; [reflexivity | apply log_top5_length].
  - split; [destruct st; reflexivity | reflexivity].
Qed.

(** ** Process actions: what is reported, and the refresh that follows *)

(** An action that shows one box and then refreshes. *)
Lemma show_then_refresh (w : World) (m : MessageBox) (st : TaskManager) :
  finally (fun st => Done (show m st)) (refresh_processes w) st
  = refresh_processes w (show m st) /\
  (shown (state_of (finally (fun st => Done (show m st))
                      (refresh_processes w) st))
   = (shown st ++ [m])%list /\
   proc_table (state_of (finally (fun st => Done (show m st))
                           (refresh_processes w) st))
   = refreshed_table w st).
Proof.
  assert (E : finally (fun st => Done (show m st)) (refresh_processes w) st
              = refresh_processes w (show m st))
    by (unfold finally; destruct (refresh_processes w _); reflexivity).
  rewrite E. split; [reflexivity | ].
  unfold refresh_processes.
  destruct (update_selected_details_keeps w (rebuild_table w (show m st)))
    as (Et & _ & _ & _ & Es).
  rewrite Et, Es. split; reflexivity.
Qed.

(** X9. Terminate, Kill, Suspend, Resume and Set Priority each show
    exactly one message box, whatever the outcome of the OS call, and each
    leaves the process table rebuilt from a fresh sample. *)
Theorem actions_report_and_refresh
  (w : World) (pid : Z) (label : string) (st : TaskManager) :
  Forall
    (fun act : Handler =>
       exists m,
         shown (state_of (act st)) = (shown st ++ [m])%list /\
         proc_table (state_of (act st)) = refreshed_table w st)
    [terminate_pid w pid; kill_pid w pid; suspend_pid w pid; resume_pid w pid;
     set_priority_by_value w pid label].
Proof.
  repeat (apply Forall_cons;
          [eexists; exact (proj2 (show_then_refresh w _ st)) | ]).
  apply Forall_nil.
Qed.

(** X10. Suspend and Resume have no clause for a missing process: when
    [psutil.Process(pid)] raises, whatever the exception, the user gets a
    warning with the text of the exception, and the refresh follows. *)
Theorem suspend_resume_failure_warns
  (w : World) (pid : Z) (e : exn) (st : TaskManager) :
  w_Process w pid = Exc e ->
  suspend_pid w pid st =
    refresh_processes w (show (Warning "Suspend" ("Error: " ++ exn_str e)) st) /\
  resume_pid w pid st =
    refresh_processes w (show (Warning "Resume" ("Error: " ++ exn_str e)) st) /\
  shown (state_of (suspend_pid w pid st)) =
    (shown st ++ [Warning "Suspend" ("Error: " ++ exn_str e)])%list /\
  shown (state_of (resume_pid w pid st)) =
    (shown st ++ [Warning "Resume" ("Error: " ++ exn_str e)])%list.
Proof.
  intros H. unfold suspend_pid, resume_pid. rewrite H. cbn [rbind simple_message].
  destruct (show_then_refresh w (Warning "Suspend" ("Error: " ++ exn_str e)) st)
    as (E1 & S1 & _).
  destruct (show_then_refresh w (Warning "Resume" ("Error: " ++ exn_str e)) st)
    as (E2 & S2 & _).
  auto.
Qed.

Lemma suspend_resume_failure_warns_witness :
  shown (state_of (suspend_pid (linux_world [init_proc]) 4242 new_window)) =
    [Warning "Suspend" "Error: process no longer exists"] /\
  shown (state_of (resume_pid (linux_world [init_proc]) 4242 new_window)) =
    [Warning "Resume" "Error: process no longer exists"].
Proof.
  destruct (suspend_resume_failure_warns (linux_world [init_proc]) 4242
              (NoSuchProcess "process no longer exists") new_window eq_refl)
    as (_ & _ & Hs & Hr).
  split; [exact Hs | exact Hr].
Defined.

(** X11. When the process takes the signal but has not exited after the
    three seconds of the wait, Terminate and Kill report the timeout in a
    warning and go on to the refresh; a process that exits in time is
    reported as terminated, or killed. *)
Theorem stop_timeout_reported
  (w : World) (pid : Z) (p : ProcHandle) (msg : string) (st : TaskManager) :
  w_Process w pid = Val p ->
  ph_terminate p = Val tt ->
  ph_kill p = Val tt ->
  ph_wait p 3 = Exc (TimeoutExpired msg) ->
  terminate_pid w pid st =
    refresh_processes w (show (Warning "Terminate" ("Error: " ++ msg)) st) /\
  kill_pid w pid st =
    refresh_processes w (show (Warning "Kill" ("Error: " ++ msg)) st).
Proof.
  intros Hp Ht Hk Hw. unfold terminate_pid, kill_pid, stop_process.
  rewrite Hp. cbn [rbind]. rewrite Ht, Hk. cbn [rbind]. rewrite Hw.
  cbn [stop_message exn_str].
  split; apply (proj1 (show_then_refresh w _ st)).
Qed.

Lemma stop_timeout_reported_witness :
  let w := with_Process (fun _ => Val stubborn_handle) (linux_world []) in
  terminate_pid w 77 new_window =
    refresh_processes w
      (show (Warning "Terminate" "Error: timeout after 3 seconds (pid=77)")
         new_window) /\
  kill_pid w 77 new_window =
    refresh_processes w
      (show (Warning "Kill" "Error: timeout after 3 seconds (pid=77)")
         new_window).
Proof.
  intros w.
  apply (stop_timeout_reported w 77 stubborn_handle
           "timeout after 3 seconds (pid=77)" new_window);
    reflexivity.
Defined.

Example stop_in_time :
  shown (state_of (terminate_pid (linux_world [init_proc]) 1 new_window))
  = [Information "Terminate" "Process terminated."] /\
  shown (state_of (kill_pid (linux_world [init_proc]) 1 new_window))
  = [Information "Kill" "Process killed."].
Proof. split; vm_compute; reflexivity. Qed.

(** C9, the code at the failing input. Process 4242 is gone and the row
    of process 4 is selected. Terminate and Kill on pid 4242 show "Process
    does not exist.", and then run the refresh of their [finally] clause:
    it selects the row of process 4 again and asks for its name outside
    any handler; process 4 exits just then, and the [NoSuchProcess] of that
    call leaves [terminate_pid] and [kill_pid]. *)
Theorem stop_missing_process_then_raises :
  let w := racing_world in
  let st := window_with_selected w [process4] 0 in
  w_Process w 4242 = Exc (NoSuchProcess "process no longer exists") /\
  shown (state_of (terminate_pid w 4242 st))
    = [Information "Terminate" "Process does not exist."] /\
  shown (state_of (kill_pid w 4242 st))
    = [Information "Kill" "Process does not exist."] /\
  raised (terminate_pid w 4242 st) = true /\
  raised (kill_pid w 4242 st) = true /\
  raised (refresh_processes w st) = true.
Proof.
  intros w st.
  split; [reflexivity | ].
  split; [vm_compute; reflexivity | ].
  split; [vm_compute; reflexivity | ].
  split; [vm_compute; reflexivity | ].
  split; vm_compute; reflexivity.
Qed.

(** ** Priority levels on both platforms *)

(** X12. Off Windows the value handed to [p.nice] is, for every label, one
    of 19, 0, -5 and -20, so it is always a nice value of the Unix scale
    -20..19; the four levels of the menu get 19, 0, -5 and -20 in turn. *)
Theorem unix_nice_in_scale (w : World) (label : string) :
  w_platform_system w <> "Windows" ->
  In (nice_value w label) [19; 0; -5; -20] /\
  -20 <= nice_value w label <= 19 /\
  map (nice_value w) known_levels = [19; 0; -5; -20].
Proof.
  intros H. unfold nice_value.
  destruct (String.eqb_spec (w_platform_system w) "Windows") as [E | _];
    [contradiction | ].
  assert (Hin : In (unix_nice label) [19; 0; -5; -20]).
  { unfold unix_nice.
    destruct (String.eqb label "Low"); [simpl; auto | ].
    destruct (String.eqb label "Normal"); [simpl; auto | ].
    destruct (String.eqb label "High"); simpl; auto. }
  split; [exact Hin | ]. split; [ | reflexivity].
  simpl in Hin. lia.
Qed.

Lemma unix_nice_in_scale_witness :
  In (nice_value (linux_world []) "Idle") [19; 0; -5; -20] /\
  -20 <= nice_value (linux_world []) "Idle" <= 19 /\
  map (nice_value (linux_world [])) known_levels = [19; 0; -5; -20].
Proof.
  apply (unix_nice_in_scale (linux_world []) "Idle"). simpl. discriminate.
Defined.

Lemma mapping_get_unknown (w : World) (label : string) (d : Z) :
  ~ In label known_levels -> mapping_get (windows_mapping w) label d = d.
Proof.
  intros H. unfold windows_mapping, mapping_get.
  repeat match goal with
         | |- context [String.eqb ?a label] =>
             destruct (String.eqb_spec a label) as [<- | _];
             [exfalso; apply H; simpl; tauto | ]
         end.
  reflexivity.
Qed.

(** X13. On Windows each of the four levels gets its psutil priority
    class, or the usual number of that class when psutil lacks the
    constant, and every other label gets the class of Normal. *)
Theorem windows_levels (w : World) (label : string) :
  w_platform_system w = "Windows" ->
  ~ In label known_levels ->
  map (nice_value w) known_levels =
    [psutil_getattr w "IDLE_PRIORITY_CLASS" 64;
     psutil_getattr w "NORMAL_PRIORITY_CLASS" 32;
     psutil_getattr w "HIGH_PRIORITY_CLASS" 128;
     psutil_getattr w "REALTIME_PRIORITY_CLASS" 256] /\
  nice_value w label = nice_value w "Normal".
Proof.
  intros Hw Hl. unfold nice_value. rewrite Hw. cbn [String.eqb Ascii.eqb].
  split.
  - reflexivity.
  - rewrite mapping_get_unknown by assumption. reflexivity.
Qed.

Lemma windows_levels_witness :
  map (nice_value (windows_world [])) known_levels = [64; 32; 128; 256] /\
  nice_value (windows_world []) "Bogus" = nice_value (windows_world []) "Normal".
Proof.
  apply (windows_levels (windows_world []) "Bogus").
  - reflexivity.
  - simpl. intros [H | [H | [H | [H | []]]]]; discriminate.
Defined.



(** X14. The context menu computes a priority value beside each level
    and hands on only the level. When psutil has the priority-class
    constants exactly on Windows, the value [set_priority_by_value] then
    sets for a level of the menu is the value the menu computed for it. *)
Theorem menu_values_agree (w : World) (label : string) (val : Z) :
  constants_match_platform w ->
  In (label, val) (menu_priorities w) ->
  nice_value w label = val.
Proof.
  intros Hc Hin.
  assert (Hk : forall name d1 d2,
             In name priority_constants ->
             String.eqb (w_platform_system w) "Windows" = true ->
             psutil_getattr w name d1 = psutil_getattr w name d2).
  { intros name d1 d2 Hn Hw. specialize (Hc name Hn). rewrite Hw in Hc.
    unfold psutil_hasattr in Hc. unfold psutil_getattr.
    destruct (w_psutil_const w name); [reflexivity | discriminate]. }
  assert (Hu : forall name d,
             In name priority_constants ->
             String.eqb (w_platform_system w) "Windows" = false ->
             psutil_getattr w name d = d).
  { intros name d Hn Hw. specialize (Hc name Hn). rewrite Hw in Hc.
    unfold psutil_hasattr in Hc. unfold psutil_getattr.
    destruct (w_psutil_const w name); [discriminate | reflexivity]. }
  unfold nice_value.
  destruct (String.eqb (w_platform_system w) "Windows") eqn:Hw.
  - simpl in Hin.
    destruct Hin as [H | [H | [H | [H | []]]]]; injection H as <- <-;
      cbn; apply Hk; simpl; auto 6.
  - simpl in Hin.
    destruct Hin as [H | [H | [H | [H | []]]]]; injection H as <- <-;
      rewrite Hu by (simpl; auto 6); reflexivity.
Qed.

Lemma menu_values_agree_witness :
  nice_value (linux_world []) "High" = -5 /\
  nice_value (windows_world []) "High" = 128.
Proof.
  split.
  - apply (menu_values_agree (linux_world []) "High" (-5)).
    + intros name Hn. reflexivity.
    + simpl. auto.
  - apply (menu_values_agree (windows_world []) "High" 128).
    + intros name [<- | [<- | [<- | [<- | []]]]]; reflexivity.
    + simpl. auto.
Defined.

(** ** The users tab *)

Lemma fill_users_ok (w : World) (us : list User) :
  printable w us ->
  forall rows, fill_users w us rows = inl (rows ++ map (user_row w) us)%list.
Proof.
  induction 1 as [|u us [s Hs] _ IH]; intros rows; simpl.
  - now rewrite app_nil_r.
  - rewrite Hs, IH. unfold user_row at 2, started_or_empty. rewrite Hs.
    rewrite <- app_assoc. reflexivity.
Qed.

(** X15. When [psutil.users()] answers and every login time can be
    printed, [refresh_users] returns and replaces the users table: it then
    holds one row of three cells for each session, in the order given,
    and nothing of what it held before. *)
Theorem refresh_users_replaces_table
  (w : World) (us : list User) (st : TaskManager) :
  w_users w = Val us ->
  printable w us ->
  refresh_users w st = Done (set_users_table (map (user_row w) us) st) /\
  length (users_table (state_of (refresh_users w st))) = length us.
Proof.
  intros Hu Hp. unfold refresh_users. rewrite Hu.
  rewrite (fill_users_ok w us Hp []). simpl.
  split; [reflexivity | apply length_map].
Qed.

Lemma refresh_users_replaces_table_witness :
  let w := with_users (Val [alice; bob]) (linux_world []) in
  let st := set_users_table [["carol"; "tty9"; "long ago"]] new_window in
  refresh_users w st = Done (set_users_table (map (user_row w) [alice; bob]) st)
  /\ length (users_table (state_of (refresh_users w st))) = 2%nat.
Proof.
  intros w st.
  apply (refresh_users_replaces_table w [alice; bob] st).
  - reflexivity.
  - repeat constructor; eexists; reflexivity.
Defined.

Example users_rows :
  users_table
    (state_of (refresh_users (with_users (Val [alice; bob]) (linux_world []))
                 new_window))
  = [["alice"; "tty1"; "1970-01-01 00:16:40"]; ["bob"; "pts/0"; "unknown"]].
Proof. reflexivity. Qed.

(** ** The buttons and the context menu *)

Lemma pid_cell_of_row (w : World) (rows : list ProcInfo) (r : nat)
  (p : ProcInfo) :
  nth_error rows r = Some p ->
  cell (table_of w rows) r 0 = Some (PyStr.str_int (pi_pid p)).
Proof.
  intros H. unfold cell, table_of.
  rewrite nth_error_map, H. reflexivity.
Qed.

(** X16. In a table filled by a refresh, at whatever time, the Terminate, Kill, Suspend and
    Resume buttons act on the process shown in the first selected row: the
    pid they read back from the PID cell is the pid of that process. *)
Theorem buttons_act_on_selected_row
  (w w0 : World) (st : TaskManager) (rows : list ProcInfo)
  (r : nat) (others : list nat) (p : ProcInfo) :
  proc_table st = table_of w0 rows ->
  proc_selected st = r :: others ->
  nth_error rows r = Some p ->
  terminate_selected w st = terminate_pid w (pi_pid p) st /\
  kill_selected w st = kill_pid w (pi_pid p) st /\
  suspend_selected w st = suspend_pid w (pi_pid p) st /\
  resume_selected w st = resume_pid w (pi_pid p) st.
Proof.
  intros Ht Hs Hr.
  assert (E : forall act, on_selected act st = act (pi_pid p) st).
  { intros act. unfold on_selected, first_selected_text.
    rewrite Hs, Ht, (pid_cell_of_row w0 rows r p Hr), py_int_str_int.
    reflexivity. }
  unfold terminate_selected, kill_selected, suspend_selected, resume_selected.
  rewrite !E. auto.
Qed.

Lemma buttons_act_on_selected_row_witness :
  let w := linux_world [process4; worker9] in
  let st := set_proc_table (table_of w [process4; worker9]) [1%nat] new_window in
  terminate_selected w st = terminate_pid w 9 st /\
  kill_selected w st = kill_pid w 9 st /\
  suspend_selected w st = suspend_pid w 9 st /\
  resume_selected w st = resume_pid w 9 st.
Proof.
  intros w st.
  apply (buttons_act_on_selected_row w w st [process4; worker9] 1 [] worker9);
    reflexivity.
Defined.




(** ** The network tab *)

(** X18. When the connections can be listed, the network table has one
    row for each connection, in the order given, and no box is shown. The
    row of a connection has six cells: TCP for a stream socket and UDP
    otherwise, the local and the remote address, the status, the pid and
    the name of the process. A connection with no pid, or pid 0, has an
    empty PID cell and an empty process cell whatever the process table
    says, and a connection whose process cannot be looked up keeps its
    row, with an empty process cell. When the listing raises, the table is
    empty and one warning box is shown. *)
Theorem network_rows (w : World) (cs : list Conn) (e : exn) :
  snd (refresh_network w (Val cs)) = [] /\
  Forall2
    (fun c row =>
       exists name,
         row = [if c_is_stream c then "TCP" else "UDP";
                addr_text (c_laddr c); addr_text (c_raddr c); c_status c;
                match conn_pid c with
                | Some pid => PyStr.str_int pid
                | None => ""
                end;
                name] /\
         match conn_pid c with
         | None => name = ""
         | Some pid =>
             match w_Process w pid with
             | Exc _ => name = ""
             | Val p => name = match ph_name p with Val n => n | Exc _ => "" end
             end
         end)
    cs (fst (refresh_network w (Val cs))) /\
  refresh_network w (Exc e) =
    ([], [Warning "Network" ("Failed to list connections: " ++ exn_str e)]).
Proof.
  split; [reflexivity | ]. split; [ | reflexivity].
  simpl. induction cs as [|c cs IH]; simpl; constructor; [ | exact IH].
  exists (conn_proc_name w c). split; [reflexivity | ].
  unfold conn_proc_name.
  destruct (conn_pid c) as [pid|]; [ | reflexivity].
  cbn [rbind]. destruct (w_Process w pid) as [p|e']; reflexivity.
Qed.

Example network_example :
  refresh_network (linux_world [init_proc]) (Val [kernel_conn; ssh_conn])
  = ([["UDP"; "0.0.0.0:68"; ""; "NONE"; ""; ""];
      ["TCP"; "10.0.0.5:22"; "10.0.0.9:50122"; "ESTABLISHED"; "4242"; ""]],
     []) /\
  refresh_network (linux_world [])
    (Exc (AccessDenied "psutil.AccessDenied"))
  = ([], [Warning "Network" "Failed to list connections: psutil.AccessDenied"]).
Proof. split; reflexivity. Qed.

(** ** The services tab *)

Lemma service_cells_answering (s : Service) :
  (exists n d t,
      s_name s = Val n /\ s_display_name s = Val d /\ s_status s = Val t) ->
  snd (service_cells s) = None /\ length (fst (service_cells s)) = 4%nat.
Proof.
  intros (n & d & t & Hn & Hd & Ht). unfold service_cells.
  rewrite Hn, Hd, Ht. split; reflexivity.
Qed.

Lemma fill_services_ok (ss : list Service) :
  answering ss ->
  forall rows,
    fill_services ss rows = ((rows ++ map service_row ss)%list, None).
Proof.
  induction 1 as [|s ss Hs _ IH]; intros rows; simpl.
  - now rewrite app_nil_r.
  - destruct (service_cells_answering s Hs) as [He _].
    assert (Er : service_row s = fst (service_cells s)) by reflexivity.
    destruct (service_cells s) as [cells err]. simpl in He, Er. subst err.
    rewrite Er, IH, <- app_assoc. reflexivity.
Qed.

(** X19. On Windows, when the services can be enumerated and each answers
    its name, display name and status, the services table gets one row of
    four cells for each service, in order, and no box is shown, also when
    reading the pid of a service fails: that only leaves its PID cell
    empty. *)
Theorem services_rows (w : World) (ss : list Service) :
  w_platform_system w = "Windows" ->
  answering ss ->
  refresh_services w (Val ss) = (map service_row ss, []) /\
  Forall (fun row => length row = 4%nat) (map service_row ss) /\
  Forall (fun s => match s_pid s with
                   | Exc _ => nth 3 (service_row s) "?" = ""
                   | Val o => nth 3 (service_row s) "?" = str_opt PyStr.str_int o
                   end) ss.
Proof.
  intros Hw Ha. split; [ | split].
  - unfold refresh_services. rewrite Hw. cbn [String.eqb Ascii.eqb].
    rewrite (fill_services_ok ss Ha []). reflexivity.
  - apply Forall_map. eapply Forall_impl; [ | exact Ha].
    intros s Hs. now apply service_cells_answering.
  - eapply Forall_impl; [ | exact Ha].
    intros s (n & d & t & Hn & Hd & Ht).
    unfold service_row, service_cells. rewrite Hn, Hd, Ht.
    destruct (s_pid s); reflexivity.
Qed.

Lemma services_rows_witness :
  refresh_services (windows_world [])
    (Val [spooler; stopped_service; guarded_service])
  = ([["Spooler"; "Print Spooler"; "running"; "1200"];
      ["Fax"; "Fax"; "stopped"; "None"];
      ["WinDefend"; "Defender"; "running"; ""]], []).
Proof.
  assert (Ha : answering [spooler; stopped_service; guarded_service])
    by (repeat constructor; do 3 eexists; repeat split; reflexivity).
  destruct (services_rows (windows_world [])
              [spooler; stopped_service; guarded_service] eq_refl Ha)
    as (Hw & _ & _).
  exact Hw.
Defined.

Example services_elsewhere :
  refresh_services (linux_world []) (Val [spooler])
  = ([[services_placeholder]], []) /\
  refresh_services (windows_world [])
    (Val [spooler; mkService (Exc (OtherError "gone")) (Val "x") (Val "y")
                     (Val None); stopped_service])
  = ([["Spooler"; "Print Spooler"; "running"; "1200"]; []],
     [Warning "Services" "Could not enumerate services: gone"]).
Proof. split; reflexivity. Qed.

(** ** CSV export *)

Lemma cells_of_row (row : list string) :
  map (fun c => or_default (nth_error row c) "") (seq 0 (length row)) = row.
Proof.
  induction row as [|x row IH]; simpl; [reflexivity | ].
  f_equal. rewrite <- seq_shift, map_map. exact IH.
Qed.

Lemma row_of_length (w : World) (d : list (Z * Q)) (p : ProcInfo) :
  length (row_of w d p) = 14%nat.
Proof. reflexivity. Qed.

(** X20. The rows handed to the CSV writer always have one field for each
    column, the header row first. For a process table filled by a refresh
    the export is the header followed by the rows of the table, cell for
    cell. *)
Theorem export_round_trip (w : World) (st : TaskManager) (t : Table) :
  let shown_table := proc_table (state_of (refresh_processes w st)) in
  Forall (fun row => length row = 14%nat) (export_rows process_headers t) /\
  length (export_rows process_headers t) = S (length t) /\
  export_rows process_headers shown_table = process_headers :: shown_table.
Proof.
  intros shown_table. split; [ | split].
  - unfold export_rows. constructor; [reflexivity | ].
    apply Forall_map. apply Forall_forall. intros row _.
    now rewrite length_map, length_seq.
  - unfold export_rows. simpl. now rewrite length_map.
  - subst shown_table. unfold refresh_processes.
    destruct (update_selected_details_keeps w (rebuild_table w st)) as [E _].
    rewrite E. unfold rebuild_table. cbn [proc_table set_proc_table].
    unfold export_rows. f_equal.
    rewrite map_map. apply map_ext. intros p.
    change (length process_headers) with (length (row_of w (gpu_dict_of w) p)).
    apply cells_of_row.
Qed.

Example export_pads_short_rows :
  export_rows services_headers [["Spooler"; "Print Spooler"]; []]
  = [services_headers; ["Spooler"; "Print Spooler"; ""; ""]; [""; ""; ""; ""]].
Proof. reflexivity. Qed.

(** ** The window of [main.py] *)

(** X21. In [main.py] every refresh that completes appends one history
    row for each process enumerated and removes none: after [n] refreshes
    in which [k] processes are logged the history is longer by [n * k]
    rows, without bound. *)
Theorem main_history_grows
  (w : World) (procs logged : list ProcInfo) (n : nat) (st : Main.Window) :
  w_process_iter w = Val procs ->
  w_history_iter w = Val logged ->
  let once := fun st => Main.state_of (Main.refresh_processes w st) in
  Main.refresh_processes w st =
    Main.Done (Main.mkWindow (map (Main.row_of w) procs) []
                 (Main.history_table st ++ map (MainPy.history_row w) logged)%list
                 (Main.users_table st) (Main.shown st)) /\
  length (Main.history_table (Nat.iter n once st)) =
    (length (Main.history_table st) + n * length logged)%nat.
Proof.
  intros Hp Hl once.
  assert (E : forall s,
             Main.refresh_processes w s =
               Main.Done (Main.mkWindow (map (Main.row_of w) procs) []
                            (Main.history_table s
                             ++ map (MainPy.history_row w) logged)%list
                            (Main.users_table s) (Main.shown s))).
  { intros s. unfold Main.refresh_processes. rewrite Hp, Hl. reflexivity. }
  split; [apply E | ].
  induction n as [|n IH]; simpl; [lia | ].
  unfold once at 1. rewrite E. simpl.
  rewrite length_app, length_map, IH. lia.
Qed.

Lemma main_history_grows_witness :
  let w := linux_world five_procs in
  let once := fun st => Main.state_of (Main.refresh_processes w st) in
  length (Main.history_table
            (Nat.iter 200 once (Main.mkWindow [] [] [] [] [])))
  = 1000%nat.
Proof.
  intros w once.
  destruct (main_history_grows w five_procs five_procs 200
              (Main.mkWindow [] [] [] [] []) eq_refl eq_refl) as [_ H].
  exact H.
Defined.

(** X22. [kill_task] of [main.py] reads the pid outside its handler, but
    once the pid is read nothing leaves it: a failure of the kill is shown
    as a warning and the table is left as it was, with no refresh, and a
    failure of the refresh after a kill is shown as a warning too. *)
Theorem main_kill_task_contained
  (w : World) (st : Main.Window) (r c : nat) (others : list (nat * nat))
  (text : string) (pid : Z) :
  Main.selected st = (r, c) :: others ->
  cell (Main.proc_table st) r c = Some text ->
  PyStr.py_int text = Some pid ->
  Main.raised (Main.kill_task w st) = false /\
  match (p <- w_Process w pid ;; ph_kill p) with
  | Exc e =>
      Main.kill_task w st =
        Main.Done (Main.show (Warning "Error" (exn_str e)) st)
  | Val _ =>
      exists m,
        Main.shown (Main.state_of (Main.kill_task w st)) =
          (Main.shown st
           ++ Information "Success" "Process killed successfully" :: m)%list /\
        (length m <= 1)%nat
  end.
Proof.
  intros Hs Hc Hi. unfold Main.kill_task. rewrite Hs, Hc, Hi.
  destruct (p <- w_Process w pid ;; ph_kill p) as [u | e];
    [ | split; reflexivity].
  unfold Main.refresh_processes.
  destruct (w_process_iter w) as [procs | e1].
  - destruct (w_history_iter w) as [logged | e2].
    + split; [reflexivity | ]. exists []. simpl. split; [reflexivity | lia].
    + split; [reflexivity | ].
      exists [Warning "Error" (exn_str e2)]. simpl.
      rewrite <- app_assoc. split; [reflexivity | lia].
  - split; [reflexivity | ].
    exists [Warning "Error" (exn_str e1)]. simpl.
    rewrite <- app_assoc. split; [reflexivity | lia].
Qed.

Lemma main_kill_task_contained_witness :
  let w := linux_world [init_proc] in
  let st := Main.mkWindow [Main.row_of w (proc 4242 None)] [(0%nat, 0%nat)]
              [] [] [] in
  Main.raised (Main.kill_task w st) = false /\
  Main.kill_task w st =
    Main.Done (Main.show (Warning "Error" "process no longer exists") st).
Proof.
  intros w st.
  destruct (main_kill_task_contained w st 0 0 [] "4242" 4242
              eq_refl eq_refl eq_refl) as [Hr Hk].
  split; [exact Hr | exact Hk].
Defined.

(** ** Where a tick can fail *)

(** X23. A tick of the refresh timer fails exactly when the process
    refresh or, after it, the users refresh lets an exception out: the GPU
    label and the history log never do, whatever GPUtil and the second
    enumeration give. When the tick completes, its history table is the one
    [refresh_history_log] makes of the table before the tick. *)
Theorem tick_failure_sources (w : World) (st : TaskManager) :
  let after_procs := refresh_processes w st in
  let after_users := refresh_users w (state_of after_procs) in
  raised (auto_refresh w st) = raised after_procs || raised after_users /\
  (raised (auto_refresh w st) = true \/
   history_table (state_of (auto_refresh w st)) =
     history_table (state_of (refresh_history_log w st))).
Proof.
  intros after_procs after_users. subst after_procs after_users.
  unfold auto_refresh, and_then.
  pose proof (update_selected_details_keeps w (rebuild_table w st))
    as (_ & _ & Hh & _).
  unfold refresh_processes in *.
  destruct (update_selected_details w (rebuild_table w st)) as [st1 | e st1];
    [ | split; [reflexivity | left; reflexivity]].
  cbn [state_of raised orb] in *.
  assert (Hu : forall o, refresh_users w st1 = o ->
                         history_table (state_of o) = history_table st1).
  { intros o <-. unfold refresh_users.
    destruct (w_users w); [ | reflexivity].
    destruct (fill_users w a []) as [rows | [e rows]]; reflexivity. }
  specialize (Hu _ eq_refl).
  destruct (refresh_users w st1) as [st2 | e st2];
    [ | split; [reflexivity | left; reflexivity]].
  cbn [state_of] in Hu.
  unfold update_gpu_label, refresh_history_log.
  destruct (w_GPU_AVAILABLE w); destruct (w_history_iter w);
    (split; [reflexivity | right]); cbn; rewrite ?Hu, ?Hh; reflexivity.
Qed.
